(** * A shallow embedding of aiida-inq: the INQ parser, the calculation's
    input preparation and the convergence work chain.

    Python values are modelled by [pyval], Python exceptions by [exn] and
    fallible Python code by the result type [res].  Python floats are
    modelled as exact rationals ([Q]).  Conversions performed by the Python
    runtime and by external libraries ([float()], [getattr(ase.units, _)])
    are parameters of the definitions. *)

From Stdlib Require Import String Ascii List Bool ZArith QArith Qround Lia Permutation.
Import ListNotations.
Open Scope string_scope.
Set Warnings "-register-all".

(* ------------------------------------------------------------------ *)
(** ** Python runtime: values, exceptions, results *)

Inductive exn :=
| KeyError
| AttributeError
| IndexError
| TypeError
| ValueError
| FileNotFoundError.

Inductive pyval :=
| VNone
| VBool (b : bool)
| VInt (z : Z)
| VFloat (q : Q)
| VStr (s : string)
| VList (l : list pyval)
| VDict (kvs : list (string * pyval)).

Inductive res (A : Type) :=
| Ok (a : A)
| Exc (e : exn).
Arguments Ok {A} a.
Arguments Exc {A} e.

Definition bind {A B} (c : res A) (k : A -> res B) : res B :=
  match c with
  | Ok a => k a
  | Exc e => Exc e
  end.

Notation "x <- c ;; k" := (bind c (fun x => k))
  (at level 61, c at next level, right associativity).

(** Python dictionaries keep insertion order; assigning an existing key
    replaces its value in place, a new key goes to the end. *)
Fixpoint dict_get {V} (d : list (string * V)) (k : string) : option V :=
  match d with
  | [] => None
  | (k', v) :: d' => if String.eqb k k' then Some v else dict_get d' k
  end.

Fixpoint dict_set {V} (d : list (string * V)) (k : string) (v : V)
  : list (string * V) :=
  match d with
  | [] => [(k, v)]
  | (k', v') :: d' =>
      if String.eqb k k' then (k', v) :: d' else (k', v') :: dict_set d' k v
  end.

Definition dict_mem {V} (d : list (string * V)) (k : string) : bool :=
  match dict_get d k with Some _ => true | None => false end.

(** [v[k]] for a dictionary [v] and a string key. *)
Definition py_getitem (v : pyval) (k : string) : res pyval :=
  match v with
  | VDict d => match dict_get d k with Some x => Ok x | None => Exc KeyError end
  | _ => Exc TypeError
  end.

(** [l[i]] for a Python list, with negative indices counted from the end. *)
Definition py_index {A} (l : list A) (i : Z) : res A :=
  let n := Z.of_nat (length l) in
  let j := if (i <? 0)%Z then (n + i)%Z else i in
  if ((j <? 0) || (n <=? j))%Z then Exc IndexError
  else match nth_error l (Z.to_nat j) with
       | Some x => Ok x
       | None => Exc IndexError
       end.

(** [a < b] between Python numbers; any other operand raises TypeError. *)
Definition py_num (v : pyval) : option Q :=
  match v with
  | VInt z => Some (inject_Z z)
  | VFloat q => Some q
  | VBool b => Some (if b then 1 else 0)%Q
  | _ => None
  end.

Definition py_lt (a b : pyval) : res bool :=
  match py_num a, py_num b with
  | Some x, Some y => Ok (negb (Qle_bool y x))
  | _, _ => Exc TypeError
  end.

(* ------------------------------------------------------------------ *)
(** ** Python string operations *)

Definition is_py_space (c : ascii) : bool :=
  let n := nat_of_ascii c in
  (Nat.eqb n 32) || ((9 <=? n) && (n <=? 13))%nat || ((28 <=? n) && (n <=? 31))%nat.

(** [pat in s] for strings: substring test ([""] is in every string). *)
Fixpoint py_contains (pat s : string) : bool :=
  prefix pat s ||
  match s with
  | EmptyString => false
  | String _ s' => py_contains pat s'
  end.

Fixpoint split_ws_chars (cs cur : list ascii) : list (list ascii) :=
  match cs with
  | [] => match cur with [] => [] | _ => [rev cur] end
  | c :: cs' =>
      if is_py_space c then
        match cur with
        | [] => split_ws_chars cs' []
        | _ => rev cur :: split_ws_chars cs' []
        end
      else split_ws_chars cs' (c :: cur)
  end.

(** [s.split()]: split on runs of whitespace, no empty fields. *)
Definition py_split_ws (s : string) : list string :=
  map string_of_list_ascii (split_ws_chars (list_ascii_of_string s) []).

Fixpoint split_sep_chars (sep : ascii) (cs cur : list ascii) : list (list ascii) :=
  match cs with
  | [] => [rev cur]
  | c :: cs' =>
      if Ascii.eqb c sep then rev cur :: split_sep_chars sep cs' []
      else split_sep_chars sep cs' (c :: cur)
  end.

(** [s.split(sep)] for a one-character separator. *)
Definition py_split_on (sep : ascii) (s : string) : list string :=
  map string_of_list_ascii (split_sep_chars sep (list_ascii_of_string s) []).

(** [sep.join(l)] *)
Definition py_join (sep : string) (l : list string) : string := String.concat sep l.

Definition nl : ascii := ascii_of_nat 10.
Definition cr : ascii := ascii_of_nat 13.

(** Text-mode reading translates ["\r\n"] and ["\r"] to ["\n"]. *)
Fixpoint univ_newlines (cs : list ascii) : list ascii :=
  match cs with
  | [] => []
  | c :: r =>
      if Ascii.eqb c cr then
        match r with
        | c' :: r' => if Ascii.eqb c' nl then nl :: univ_newlines r'
                      else nl :: univ_newlines r
        | [] => [nl]
        end
      else c :: univ_newlines r
  end.

(** [readlines()]: each line keeps its terminating newline; a last line
    without newline is kept when it is not empty. *)
Fixpoint readlines_chars (cs cur : list ascii) : list (list ascii) :=
  match cs with
  | [] => match cur with [] => [] | _ => [rev cur] end
  | c :: r =>
      if Ascii.eqb c nl then rev (c :: cur) :: readlines_chars r []
      else readlines_chars r (c :: cur)
  end.

Fixpoint drop_nl (cs : list ascii) : list ascii :=
  match cs with
  | c :: r => if Ascii.eqb c nl then drop_nl r else cs
  | [] => []
  end.

(** [line.strip('\n')] *)
Definition strip_nl (cs : list ascii) : list ascii := rev (drop_nl (rev (drop_nl cs))).

(** [[line.strip('\n') for line in fhandle.readlines()]] on a file's content. *)
Definition file_lines (content : string) : list string :=
  map (fun l => string_of_list_ascii (strip_nl l))
      (readlines_chars (univ_newlines (list_ascii_of_string content)) []).

(* ------------------------------------------------------------------ *)
(** ** Exit codes *)

(** The exit codes the plugin declares: [ExitOK] is [ExitCode(0)], 201 and
    202 are declared by [InqCalculation.define], 401 by
    [InqConvergenceWorkChain.define]. *)
Inductive exit_code :=
| ExitOK
| INCORRECT_INPUT_PARAMETER
| NO_RUN_TYPE_SPECIFIED
| INQ_CALCULATION_FAILED.

Definition exit_status (c : exit_code) : nat :=
  match c with
  | ExitOK => 0%nat
  | INCORRECT_INPUT_PARAMETER => 201%nat
  | NO_RUN_TYPE_SPECIFIED => 202%nat
  | INQ_CALCULATION_FAILED => 401%nat
  end.

(* ------------------------------------------------------------------ *)
(** ** The parser: [src/aiida_inq/parsers/inq.py], [InqParser.parse] *)

(** What [parse] reads from the calculation node. *)
Record calc_node := {
  node_options : list (string * string);            (** [metadata.options] set on the node *)
  node_parameters : list (string * pyval);          (** [inputs.parameters.get_dict()] *)
  node_retrieve_temporary_list : list string         (** [get_retrieve_temporary_list()] *)
}.

(** [node.get_option(name)]: [None] for an option that is not set. *)
Definition get_option (node : calc_node) (name : string) : option string :=
  dict_get (node_options node) name.

(** The retrieved temporary folder: file name to file content. *)
Definition folder := list (string * string).

(** Python truthiness of a [str] or [None]. *)
Definition truthy (o : option string) : bool :=
  match o with Some s => negb (String.eqb s "") | None => false end.

(** [f'{x}'] for a [str] or [None]. *)
Definition fmt_opt (o : option string) : string :=
  match o with Some s => s | None => "None" end.

(** [set(files_expected) <= set(files_retrieved)] *)
Definition subset_of (expected : list (option string)) (retrieved : list string) : bool :=
  forallb (fun e => existsb (fun r => match e with
                                      | Some s => String.eqb s r
                                      | None => false
                                      end) retrieved) expected.

(** [open(f'{temp_folder}/{name}', 'r')] and the list of stripped lines. *)
Definition read_lines (temp : folder) (name : option string) : res (list string) :=
  match dict_get temp (fmt_opt name) with
  | Some content => Ok (file_lines content)
  | None => Exc FileNotFoundError
  end.

Inductive section := SecEnergy | SecForces.

Definition section_key (s : section) : string :=
  match s with SecEnergy => "energy" | SecForces => "forces" end.

Section Parser.

(** [float(s)]: [None] is the [ValueError] of a string that is not a number. *)
Variable py_float : string -> option Q.
(** [getattr(ase.units, name)]: [None] is the [AttributeError]. *)
Variable ase_unit : string -> option Q.

Definition to_float (s : string) : res Q :=
  match py_float s with Some q => Ok q | None => Exc ValueError end.

Definition get_unit (name : string) : res Q :=
  match ase_unit name with Some q => Ok q | None => Exc AttributeError end.

Fixpoint to_floats (l : list string) : res (list pyval) :=
  match l with
  | [] => Ok []
  | s :: l' => q <- to_float s ;; r <- to_floats l' ;; Ok (VFloat q :: r)
  end.

(** [result_dict[state][key] = v] *)
Definition set_in_section (rd : list (string * pyval)) (st : string) (k : string)
  (v : pyval) : res (list (string * pyval)) :=
  match dict_get rd st with
  | Some (VDict d) => Ok (dict_set rd st (VDict (dict_set d k v)))
  | Some _ => Exc TypeError
  | None => Exc KeyError
  end.

(** [result_dict[state]['values'].append(v)] *)
Definition append_in_section (rd : list (string * pyval)) (st : string) (v : pyval)
  : res (list (string * pyval)) :=
  match dict_get rd st with
  | Some (VDict d) =>
      match dict_get d "values" with
      | Some (VList l) => Ok (dict_set rd st (VDict (dict_set d "values" (VList (app l [v])))))
      | Some _ => Exc AttributeError
      | None => Exc KeyError
      end
  | Some _ => Exc TypeError
  | None => Exc KeyError
  end.

(** The [for line in lines] loop of [parse]. *)
Fixpoint parse_sections (lines : list string) (state : option section)
  (rd : list (string * pyval)) : res (list (string * pyval)) :=
  match lines with
  | [] => Ok rd
  | line :: rest =>
      if py_contains "Energy:" line then
        parse_sections rest (Some SecEnergy)
          (dict_set rd "energy" (VDict [("unit", VStr "eV")]))
      else if py_contains "Forces:" line then
        parse_sections rest (Some SecForces)
          (dict_set rd "forces" (VDict [("values", VList [])]))
      else
        let state := if String.eqb line "" then None else state in
        match state with
        | Some SecEnergy =>
            let values := py_split_ws line in
            last <- py_index values (-1) ;;
            unit <- get_unit last ;;
            num <- py_index values (-2) ;;
            q <- to_float num ;;
            name <- py_index values 0 ;;
            rd' <- set_in_section rd "energy" name (VFloat (q * unit)) ;;
            parse_sections rest state rd'
        | Some SecForces =>
            let values := py_split_ws line in
            fs <- to_floats values ;;
            rd' <- append_in_section rd "forces" (VList fs) ;;
            parse_sections rest state rd'
        | None => parse_sections rest state rd
        end
  end.

(** [results_filename] in [parse]: [''] unless the parameters have a
    [results] section. *)
Definition results_name (node : calc_node) : option string :=
  if dict_mem (node_parameters node) "results"
  then get_option node "results_filename" else Some "".

(** [files_expected] in [parse]. *)
Definition expected_files (node : calc_node) : list (option string) :=
  get_option node "output_filename" ::
  (if dict_mem (node_parameters node) "results" then [results_name node] else []).

(** [InqParser.parse]: the exit code and the outputs emitted with [self.out].
    [self.exit_codes] is the set declared by [InqCalculation], which has no
    [ERROR_MISSING_OUTPUT_FILES] and no [ERROR_OUTPUT_STDOUT_INCOMPLETE]:
    looking either of them up raises [AttributeError]. *)
Definition parse (node : calc_node) (temp : folder)
  : res (exit_code * list (string * pyval)) :=
  let output_filename := get_option node "output_filename" in
  let files_retrieved := node_retrieve_temporary_list node in
  let results_filename := results_name node in
  let files_expected := expected_files node in
  if negb (subset_of files_expected files_retrieved) then
    (* [return self.exit_codes.ERROR_MISSING_OUTPUT_FILES] *)
    Exc AttributeError
  else
    results_lines <- (if truthy results_filename
                      then read_lines temp results_filename else Ok []) ;;
    output_lines <- read_lines temp output_filename ;;
    final <- py_index output_lines (-1) ;;
    if negb (py_contains "AiiDA DONE" final) then
      (* [return self.exit_codes.ERROR_OUTPUT_STDOUT_INCOMPLETE] *)
      Exc AttributeError
    else
      let lines := if truthy results_filename then results_lines else output_lines in
      result_dict <- parse_sections lines None [] ;;
      Ok (ExitOK, [("output_parameters", VDict result_dict)]).

End Parser.

(* ------------------------------------------------------------------ *)
(** ** Number formatting and parsing *)

Definition digit_char (d : nat) : ascii := ascii_of_nat (48 + d).

Fixpoint nat_digits (fuel n : nat) (acc : string) : string :=
  match fuel with
  | O => acc
  | S f =>
      let acc' := String (digit_char (n mod 10)) acc in
      if Nat.ltb n 10 then acc' else nat_digits f (n / 10) acc'
  end.

(** [str(n)] for a non-negative integer. *)
Definition nat_to_string (n : nat) : string := nat_digits (S n) n "".

(** [str(z)] for an integer. *)
Definition z_to_string (z : Z) : string :=
  if (z <? 0)%Z then String "-" (nat_to_string (Z.to_nat (- z)))
  else nat_to_string (Z.to_nat z).

Definition digit_val (c : ascii) : option nat :=
  let n := nat_of_ascii c in
  if ((48 <=? n) && (n <=? 57))%nat then Some (n - 48)%nat else None.

(** Digits before and after the decimal point, as a numerator and a power
    of ten. *)
Fixpoint dec_digits (cs : list ascii) (seen_dot : bool) (num : Z) (scale : positive)
  (any : bool) : option Q :=
  match cs with
  | [] => if any then Some (Qmake num scale) else None
  | c :: r =>
      if Ascii.eqb c "." then
        if seen_dot then None else dec_digits r true num scale any
      else match digit_val c with
           | Some d =>
               dec_digits r seen_dot (num * 10 + Z.of_nat d)%Z
                 (if seen_dot then (scale * 10)%positive else scale) true
           | None => None
           end
  end.

(** A concrete [float()] on decimal literals [[-]digits[.digits]], the form
    [str()] gives the sweep values used below; floats are exact rationals. *)
Definition dec_float (s : string) : option Q :=
  match list_ascii_of_string s with
  | "-"%char :: r => option_map Qopp (dec_digits r false 0 1 false)
  | cs => dec_digits cs false 0 1 false
  end.

(* ------------------------------------------------------------------ *)
(** ** The calculation: [src/aiida_inq/calculations/inq.py] *)

(** A [Kind] of a [StructureData]: its symbols and their weights. *)
Record kind := {
  kind_symbols : list string;
  kind_weights : list Q
}.

(** The structure as [prepare_for_submission] uses it: the kinds of its
    sites, and, for the ASE atoms it converts to, the rows of [cell/scale]
    and the scale as numpy formats them and each atom's symbol with its
    formatted fractional coordinates. *)
Record structure := {
  site_kinds : list kind;
  cell_rows : list (list string);
  cell_scale : string;
  atoms : list (string * list string)
}.

(** [Kind.is_alloy]: [len(self._symbols) != 1]. *)
Definition is_alloy (k : kind) : bool := negb (Nat.eqb (length (kind_symbols k)) 1).

(** [Kind.has_vacancies]: [not 1.0 - sum(weights) < _SUM_THRESHOLD], with
    [_SUM_THRESHOLD = 1e-6]. *)
Definition has_vacancies (k : kind) : bool :=
  Qle_bool (1 # 1000000) (1 - fold_right Qplus 0 (kind_weights k)).

(** [structure.get_ase()]: each site is converted with [Site.get_ase], which
    raises [ValueError] for the kind of an alloy or with vacancies. *)
Definition get_ase (s : structure) : res unit :=
  if existsb (fun k => is_alloy k || has_vacancies k) (site_kinds s)
  then Exc ValueError else Ok tt.

Record calcinfo := {
  ci_stdin_name : string;
  ci_stdout_name : string;
  ci_retrieve_temporary_list : list string
}.

Definition dq : string := String (ascii_of_nat 34) "".

Definition DEFAULT_INPUT_FILE := "aiida.in".
Definition DEFAULT_OUTPUT_FILE := "aiida.out".
Definition DEFAULT_ERROR_FILE := "aiida.err".

Section Calculation.

(** [repr()] of a Python float. *)
Variable float_repr : Q -> string.

(** [str(v)] ([quoted = false]) and [repr(v)] ([quoted = true]) as used in
    an f-string; containers show their items with [repr]. *)
Fixpoint py_fmt (quoted : bool) (v : pyval) : string :=
  match v with
  | VNone => "None"
  | VBool b => if b then "True" else "False"
  | VInt z => z_to_string z
  | VFloat q => float_repr q
  | VStr s => if quoted then "'" ++ s ++ "'" else s
  | VList l =>
      "[" ++ py_join ", " (map (py_fmt true) l) ++ "]"
  | VDict d =>
      "{" ++ py_join ", "
        ((fix items (d : list (string * pyval)) : list string :=
            match d with
            | [] => []
            | (k, x) :: d' => ("'" ++ k ++ "': " ++ py_fmt true x) :: items d'
            end) d) ++ "}"
  end.

Definition py_str := py_fmt false.

(** [parameters.pop('run', None)] *)
Definition dict_pop {V} (d : list (string * V)) (k : string) : option V * list (string * V) :=
  (dict_get d k, filter (fun kv => negb (String.eqb (fst kv) k)) d).

(** [list(v.keys())[0]]: [None] and strings have no [keys]. *)
Definition first_key (v : option pyval) : res string :=
  match v with
  | Some (VDict d) => py_index (map fst d) 0
  | _ => Exc AttributeError
  end.

(** [for k, v in val.items(): f.write(f"inq {key} {k} {v}\n")] *)
Definition section_lines (key : string) (val : pyval) : res (list string) :=
  match val with
  | VDict d => Ok (map (fun kv => "inq " ++ key ++ " " ++ fst kv ++ " " ++ py_str (snd kv)) d)
  | _ => Exc AttributeError
  end.

Fixpoint parameter_lines (ps : list (string * pyval)) : res (list string) :=
  match ps with
  | [] => Ok []
  | (key, val) :: ps' =>
      l <- section_lines key val ;; r <- parameter_lines ps' ;; Ok (app l r)
  end.

Definition header_lines : list string :=
  ["#!/bin/bash"; ""; "set -e"; "set -x"; ""; "inq clear"].

Definition cell_line (s : structure) : string :=
  "inq cell " ++ py_join " " (map (py_join " ") (cell_rows s))
  ++ " scale " ++ cell_scale s ++ " angstrom".

Definition atom_lines (s : structure) : list string :=
  map (fun a => "inq ions insert fractional " ++ fst a ++ " " ++ py_join " " (snd a))
      (atoms s).

(** [InqCalculation.prepare_for_submission]: the lines of the input script
    and the [CalcInfo]; an exception means nothing is submitted. *)
Definition prepare_for_submission (parameters : list (string * pyval)) (s : structure)
  : res (list string * calcinfo) :=
  _ <- get_ase s ;;
  let (run_type, parameters) := dict_pop parameters "run" in
  run_type <- first_key run_type ;;
  (* [if run_type is None: self.report(...); self.exit_codes.NO_RUN_TYPE_SPECIFIED]:
     [run_type] is a string here, and the exit code is not returned *)
  plines <- parameter_lines parameters ;;
  let script := app header_lines (app [cell_line s] (app (atom_lines s) (app plines
                   ["inq run " ++ run_type; ""; "echo " ++ dq ++ "AiiDA DONE" ++ dq]))) in
  Ok (script, {| ci_stdin_name := DEFAULT_INPUT_FILE;
                 ci_stdout_name := DEFAULT_OUTPUT_FILE;
                 ci_retrieve_temporary_list := [DEFAULT_OUTPUT_FILE; DEFAULT_ERROR_FILE] |}).

End Calculation.

(* ------------------------------------------------------------------ *)
(** ** K-point mesh derivation *)

(** The structure's lattice, given by the lengths of its three
    reciprocal-lattice vectors. *)
Record lattice := {
  rec_len1 : Q;
  rec_len2 : Q;
  rec_len3 : Q
}.

(** Modelled from the spec: [KpointsData.set_kpoints_mesh_from_density(
    spacing, force_parity=False)] followed by [get_kpoints_mesh()[0]], the
    mesh derivation [run_kspacing] calls (section 4.2: each reciprocal
    vector length divided by the spacing, mapped to the smallest integer
    count reaching at least that density, positive, no forced parity). *)
Definition mesh_count (len spacing : Q) : nat :=
  Nat.max 1 (Z.to_nat (Qceiling (len / spacing))).

Definition derive (lat : lattice) (spacing : Q) : nat * nat * nat :=
  (mesh_count (rec_len1 lat) spacing,
   mesh_count (rec_len2 lat) spacing,
   mesh_count (rec_len3 lat) spacing).

(** [' '.join([str(k) for k in kpoints])] *)
Definition mesh_string (m : nat * nat * nat) : string :=
  let '(a, b, c) := m in py_join " " [nat_to_string a; nat_to_string b; nat_to_string c].

(* ------------------------------------------------------------------ *)
(** ** The work chain: [src/aiida_inq/workflows/convergence.py] *)

Definition params := list (string * pyval).

(** A finished [InqBaseWorkchain]: the parameters it was submitted with
    ([workchain.inputs.inq.parameters]) and, when [is_finished_ok], its
    [outputs.output_parameters] dictionary. *)
Record trial := {
  tr_params : params;
  tr_outputs : option pyval
}.

(** What the work chain does that is visible from outside or from the
    context: submissions, failure reports, context assignments of the
    selected values, and outputs. *)
Inductive event :=
| Submit (stage : string) (label : string) (p : params)
| ReportFailed (stage : string) (label : pyval)
| CtxSet (name : string) (v : pyval)
| Out (name : string) (v : pyval).

Inductive wc_end :=
| Finished (c : exit_code)
| Excepted (e : exn).

Record sweep_inputs := {
  wc_parameters : params;          (** [inq.parameters] of the exposed inputs *)
  wc_structure : lattice;          (** [structure] *)
  wc_energy_list : list string;    (** [energy_list], e.g. ["30 Ry"] *)
  wc_kspacing_list : list string   (** [kspacing_list], each float as [str()] shows it *)
}.

(** An entry of [ctx.energy] or [ctx.kspacing]: the node a future resolved
    into, or the [AttributeDict] created for a level of a dotted context
    key. *)
Inductive centry :=
| CNode (t : trial)
| CNest (d : list (string * centry)).

Definition cdict := list (string * centry).

Record ctx := {
  ctx_parameters : params;           (** [ctx.inputs.inq.parameters.get_dict()] *)
  ctx_energy : option cdict;         (** [ctx.energy]; [None]: never set *)
  ctx_kspacing : option cdict;       (** [ctx.kspacing] before selection *)
  ctx_results_energy : list (string * pyval);    (** [ctx.results.energy] *)
  ctx_results_kspacing : list (Q * pyval);       (** [ctx.results.kspacing] *)
  ctx_energy_cutoff : option pyval;  (** [ctx.energy_cutoff] *)
  ctx_kspacing_sel : option pyval    (** [ctx.kspacing] after selection *)
}.

Inductive step :=
| Next (c : ctx)
| Halt (code : exit_code).

(** [ctx.results.kspacing[label] = energy] with a float key. *)
Fixpoint qdict_set (d : list (Q * pyval)) (k : Q) (v : pyval) : list (Q * pyval) :=
  match d with
  | [] => [(k, v)]
  | (k', v') :: d' => if Qeq_bool k k' then (k', v) :: d' else (k', v') :: qdict_set d' k v
  end.

(** [results['energy']['total']] *)
Definition total_energy (out : pyval) : res pyval :=
  e <- py_getitem out "energy" ;; py_getitem e "total".

(** The contents of [kpoint_mesh]: the two initial [''] and the
    [(kspacing, kpoints)] tuples. *)
Inductive mesh_entry :=
| MStr (s : string)
| MPair (spacing : string) (mesh : string).

(** [kpoints in e]: substring test on a [str], membership on a tuple (whose
    float component never equals a [str]). *)
Definition py_in_entry (x : string) (e : mesh_entry) : bool :=
  match e with
  | MStr s => py_contains x s
  | MPair _ m => String.eqb x m
  end.

Definition stage_dict (s : option cdict) : cdict :=
  match s with Some d => d | None => [] end.

(** [ctx[key] = value] for the context key [<stage>.<key>]:
    [WorkChain._resolve_nested_context] walks the key split on ['.'],
    creating an [AttributeDict] for each missing level and raising
    [ValueError] at a level that holds something else, and the last
    component is assigned; [path] is the part below [ctx.<stage>]. *)
Fixpoint ctx_assign (d : cdict) (path : list string) (t : trial) : res cdict :=
  match path with
  | [] => Ok d
  | [k] => Ok (dict_set d k (CNode t))
  | k :: rest =>
      match dict_get d k with
      | None => sub <- ctx_assign [] rest t ;; Ok (dict_set d k (CNest sub))
      | Some (CNest d') => sub <- ctx_assign d' rest t ;; Ok (dict_set d k (CNest sub))
      | Some (CNode _) => Exc ValueError
      end
  end.

(** Assigning the futures of a stage, in the given order, to [ctx.<stage>]. *)
Fixpoint assign_all (s : option cdict) (subs : list (list string * trial)) : res (option cdict) :=
  match subs with
  | [] => Ok s
  | (path, t) :: rest => d <- ctx_assign (stage_dict s) path t ;; assign_all (Some d) rest
  end.

(** [workchain.<name>] on an [AttributeDict] entry. *)
Definition attr (d : cdict) (name : string) : res centry :=
  match dict_get d name with Some v => Ok v | None => Exc AttributeError end.

(** Python truthiness of a node (always true) or of an [AttributeDict]. *)
Definition centry_truthy (v : centry) : bool :=
  match v with CNode _ => true | CNest [] => false | CNest _ => true end.

(** The body of the check loops on an entry that is an [AttributeDict]
    rather than a node: [Ok tt] when [not workchain.is_finished_ok] holds,
    the report branch; otherwise
    [workchain.outputs.output_parameters.get_dict()] raises (a node has no
    attribute [output_parameters] or [get_dict], an [AttributeDict] is not
    callable). *)
Definition nested_check (d : cdict) : res unit :=
  fin <- attr d "is_finished_ok" ;;
  if negb (centry_truthy fin) then Ok tt else
  outs <- attr d "outputs" ;;
  match outs with
  | CNode _ => Exc AttributeError
  | CNest d2 =>
      op <- attr d2 "output_parameters" ;;
      match op with
      | CNode _ => Exc AttributeError
      | CNest d3 => g <- attr d3 "get_dict" ;; Exc TypeError
      end
  end.

Section Workchain.

(** [float(s)] *)
Variable py_float : string -> option Q.
(** The outcome of the [InqBaseWorkchain] submitted as the [n]-th trial of a
    stage with the given parameters: [Some] output parameters when it
    finished ok, [None] otherwise. *)
Variable runner : string -> nat -> params -> option pyval.
(** The order in which the submitted futures of a stage finish: each one
    assigns its node to its context key when it finishes, in the place the
    placeholder inserted at submission holds. *)
Variable resolve : string -> list (list string * trial) -> list (list string * trial).

Definition float_of (s : string) : res Q :=
  match py_float s with Some q => Ok q | None => Exc ValueError end.

(** [setup] *)
Definition setup (inp : sweep_inputs) : ctx :=
  {| ctx_parameters := wc_parameters inp;
     ctx_energy := None; ctx_kspacing := None;
     ctx_results_energy := []; ctx_results_kspacing := [];
     ctx_energy_cutoff := None; ctx_kspacing_sel := None |}.

(** ['_'.join(energy.split())]: the context key of an energy trial. *)
Definition energy_key (energy : string) : string := py_join "_" (py_split_ws energy).

(** The loop of [run_energy]. [inputs.inq.parameters] is a stored [Dict]
    node: the assignments [parameters.electrons = ...] and
    [parameters.electrons.cutoff = energy] set a Python attribute of the
    node object and leave its content alone, so every trial is submitted
    with the parameters [ps] of the work chain. [to_context] inserts the
    placeholder of each future under [ctx.energy] at submission. *)
Fixpoint run_energy_loop (ps : params) (energies : list string) (idx : nat)
  (stage : option cdict)
  : list event * res (list (list string * trial) * option cdict) :=
  match energies with
  | [] => ([], Ok ([], stage))
  | energy :: rest =>
      let key := energy_key energy in
      let label := "energy_" ++ key in
      let t := {| tr_params := ps; tr_outputs := runner "energy" idx ps |} in
      let path := py_split_on "." key in
      match ctx_assign (stage_dict stage) path t with
      | Exc e => ([Submit "energy" label ps], Exc e)
      | Ok d =>
          let '(evs, r) := run_energy_loop ps rest (S idx) (Some d) in
          (Submit "energy" label ps :: evs,
           match r with
           | Ok (subs, s) => Ok ((path, t) :: subs, s)
           | Exc e => Exc e
           end)
      end
  end.

(** [run_energy], followed by the futures finishing in the order
    [resolve]. *)
Definition run_energy (inp : sweep_inputs) (c : ctx) : list event * res step :=
  let '(evs, r) := run_energy_loop (ctx_parameters c) (wc_energy_list inp) 0 (ctx_energy c) in
  match r with
  | Exc e => (evs, Exc e)
  | Ok (subs, stage) =>
      match assign_all stage (resolve "energy" subs) with
      | Exc e => (evs, Exc e)
      | Ok stage' =>
          (evs, Ok (Next {| ctx_parameters := ctx_parameters c;
                            ctx_energy := stage';
                            ctx_kspacing := ctx_kspacing c;
                            ctx_results_energy := ctx_results_energy c;
                            ctx_results_kspacing := ctx_results_kspacing c;
                            ctx_energy_cutoff := ctx_energy_cutoff c;
                            ctx_kspacing_sel := ctx_kspacing_sel c |}))
      end
  end.

(** The loop of [check_energy]; [inl] is the selection and the results
    table after the loop, [inr] the exit code returned from inside it.
    [min_energy] is passed on unchanged, as the source never assigns it. *)
Fixpoint check_energy_loop (entries : cdict) (min_energy cutoff : pyval)
  (results : list (string * pyval))
  : list event * res (pyval * list (string * pyval) + exit_code) :=
  match entries with
  | [] => ([], Ok (inl (cutoff, results)))
  | (label, CNode t) :: rest =>
      match tr_outputs t with
      | None => ([ReportFailed "energy" (VStr label)], Ok (inr INQ_CALCULATION_FAILED))
      | Some out =>
          match (energy <- total_energy out ;;
                 el <- py_getitem (VDict (tr_params t)) "electrons" ;;
                 cutoff' <- py_getitem el "cutoff" ;;
                 b <- py_lt energy min_energy ;;
                 Ok (energy, cutoff', b)) with
          | Exc e => ([], Exc e)
          | Ok (energy, cutoff', b) =>
              check_energy_loop rest min_energy (if b then cutoff' else cutoff)
                (dict_set results label energy)
          end
      end
  | (label, CNest d) :: rest =>
      match nested_check d with
      | Ok _ => ([ReportFailed "energy" (VStr label)], Ok (inr INQ_CALCULATION_FAILED))
      | Exc e => ([], Exc e)
      end
  end.

(** [check_energy] *)
Definition check_energy (c : ctx) : list event * res step :=
  match ctx_energy c with
  | None => ([], Exc AttributeError)
  | Some entries =>
      let '(evs, r) := check_energy_loop entries (VInt 0) (VInt 0) (ctx_results_energy c) in
      match r with
      | Exc e => (evs, Exc e)
      | Ok (inr code) => (evs, Ok (Halt code))
      | Ok (inl (cutoff, results)) =>
          (app evs [CtxSet "energy_cutoff" cutoff],
           Ok (Next {| ctx_parameters := ctx_parameters c;
                       ctx_energy := ctx_energy c;
                       ctx_kspacing := ctx_kspacing c;
                       ctx_results_energy := results;
                       ctx_results_kspacing := ctx_results_kspacing c;
                       ctx_energy_cutoff := Some cutoff;
                       ctx_kspacing_sel := ctx_kspacing_sel c |}))
      end
  end.

(** The loop of [run_kspacing]. As in [run_energy], the assignments to
    [parameters.electrons] and [parameters.kpoints.grid] leave the stored
    [Dict] node alone: every trial is submitted with the parameters [ps] of
    the work chain. *)
Fixpoint run_kspacing_loop (ps : params) (lat : lattice) (ks : list string) (idx : nat)
  (kpoint_mesh : list mesh_entry) (stage : option cdict)
  : list event * res (list (list string * trial) * option cdict) :=
  match ks with
  | [] => ([], Ok ([], stage))
  | kspacing :: rest =>
      match float_of kspacing with
      | Exc e => ([], Exc e)
      | Ok spacing =>
          let kpoints := mesh_string (derive lat spacing) in
          match py_index kpoint_mesh 1 with
          | Exc e => ([], Exc e)
          | Ok seen =>
              if negb (py_in_entry kpoints seen) then
                let kpoint_mesh' := app kpoint_mesh [MPair kspacing kpoints] in
                let key := py_join "_" (py_split_on "." kspacing) in
                let label := "kspacing_" ++ key in
                let t := {| tr_params := ps; tr_outputs := runner "kspacing" idx ps |} in
                let path := py_split_on "." key in
                match ctx_assign (stage_dict stage) path t with
                | Exc e => ([Submit "kspacing" label ps], Exc e)
                | Ok d =>
                    let '(evs, r) := run_kspacing_loop ps lat rest (S idx) kpoint_mesh' (Some d) in
                    (Submit "kspacing" label ps :: evs,
                     match r with
                     | Ok (subs, s) => Ok ((path, t) :: subs, s)
                     | Exc e => Exc e
                     end)
                end
              else run_kspacing_loop ps lat rest idx kpoint_mesh stage
          end
      end
  end.

(** [run_kspacing], followed by the futures finishing in the order
    [resolve]. *)
Definition run_kspacing (inp : sweep_inputs) (c : ctx) : list event * res step :=
  match ctx_energy_cutoff c with
  | None => ([], Exc AttributeError)
  | Some _ =>
      let '(evs, r) := run_kspacing_loop (ctx_parameters c) (wc_structure inp)
                         (wc_kspacing_list inp) 0 [MStr ""; MStr ""] (ctx_kspacing c) in
      match r with
      | Exc e => (evs, Exc e)
      | Ok (subs, stage) =>
          match assign_all stage (resolve "kspacing" subs) with
          | Exc e => (evs, Exc e)
          | Ok stage' =>
              (evs, Ok (Next {| ctx_parameters := ctx_parameters c;
                                ctx_energy := ctx_energy c;
                                ctx_kspacing := stage';
                                ctx_results_energy := ctx_results_energy c;
                                ctx_results_kspacing := ctx_results_kspacing c;
                                ctx_energy_cutoff := ctx_energy_cutoff c;
                                ctx_kspacing_sel := ctx_kspacing_sel c |}))
          end
      end
  end.

(** The loop of [check_kspacing]: each context key is turned back into a
    float with [float('.'.join(label.split('_')))]. *)
Fixpoint check_kspacing_loop (entries : cdict) (min_energy kspacing : pyval)
  (results : list (Q * pyval))
  : list event * res (pyval * list (Q * pyval) + exit_code) :=
  match entries with
  | [] => ([], Ok (inl (kspacing, results)))
  | (key, w) :: rest =>
      match float_of (py_join "." (py_split_on "_" key)) with
      | Exc e => ([], Exc e)
      | Ok label =>
          match w with
          | CNode t =>
              match tr_outputs t with
              | None => ([ReportFailed "kspacing" (VFloat label)], Ok (inr INQ_CALCULATION_FAILED))
              | Some out =>
                  match (energy <- total_energy out ;;
                         b <- py_lt energy min_energy ;;
                         Ok (energy, b)) with
                  | Exc e => ([], Exc e)
                  | Ok (energy, b) =>
                      check_kspacing_loop rest min_energy (if b then VFloat label else kspacing)
                        (qdict_set results label energy)
                  end
              end
          | CNest d =>
              match nested_check d with
              | Ok _ => ([ReportFailed "kspacing" (VFloat label)], Ok (inr INQ_CALCULATION_FAILED))
              | Exc e => ([], Exc e)
              end
          end
      end
  end.

(** [check_kspacing] *)
Definition check_kspacing (c : ctx) : list event * res step :=
  match ctx_kspacing c with
  | None => ([], Exc AttributeError)
  | Some entries =>
      let '(evs, r) := check_kspacing_loop entries (VInt 0) (VInt 0) (ctx_results_kspacing c) in
      match r with
      | Exc e => (evs, Exc e)
      | Ok (inr code) => (evs, Ok (Halt code))
      | Ok (inl (ks, results)) =>
          (app evs [CtxSet "kspacing" ks],
           Ok (Next {| ctx_parameters := ctx_parameters c;
                       ctx_energy := ctx_energy c;
                       ctx_kspacing := None;
                       ctx_results_energy := ctx_results_energy c;
                       ctx_results_kspacing := results;
                       ctx_energy_cutoff := ctx_energy_cutoff c;
                       ctx_kspacing_sel := Some ks |}))
      end
  end.

(** [results]: [suggested] is emitted first; [self.ctx.results] is then
    emitted on the exposed port [output_parameters], whose valid type is
    [Dict]; an [AttributeDict] fails the port's validation, which
    [Process.out] raises as [ValueError]. *)
Definition results (c : ctx) : list event * res step :=
  match ctx_energy_cutoff c, ctx_kspacing_sel c with
  | Some e, Some k =>
      ([Out "suggested" (VDict [("energy", e); ("kspacing", k)])], Exc ValueError)
  | _, _ => ([], Exc AttributeError)
  end.

(** Running the steps of [spec.outline] in order: a step that returns an
    exit code ends the work chain with it, an exception excepts it. *)
Fixpoint run_outline (steps : list (ctx -> list event * res step)) (c : ctx)
  : list event * wc_end :=
  match steps with
  | [] => ([], Finished ExitOK)
  | s :: ss =>
      let '(evs, r) := s c in
      match r with
      | Exc e => (evs, Excepted e)
      | Ok (Halt code) => (evs, Finished code)
      | Ok (Next c') => let '(evs', fin) := run_outline ss c' in (app evs evs', fin)
      end
  end.

(** [InqConvergenceWorkChain]: [setup] and then the outline. *)
Definition run_sweep (inp : sweep_inputs) : list event * wc_end :=
  run_outline [run_energy inp; check_energy; run_kspacing inp; check_kspacing; results]
    (setup inp).

End Workchain.

(* ------------------------------------------------------------------ *)
(** ** The selection the spec describes *)

(** Section 4.3 of the spec, for comparison with [check_energy]: the
    parameter value of the first candidate of least energy. *)
Fixpoint spec_select_from {P} (best_e : Q) (best : P) (cs : list (string * Q * P)) : P :=
  match cs with
  | [] => best
  | (_, e, p) :: cs' =>
      if negb (Qle_bool best_e e) then spec_select_from e p cs'
      else spec_select_from best_e best cs'
  end.

Definition spec_select {P} (cs : list (string * Q * P)) : option P :=
  match cs with
  | [] => None
  | (_, e, p) :: cs' => Some (spec_select_from e p cs')
  end.

(* ------------------------------------------------------------------ *)
(** ** Concrete inputs *)

(** A finished-ok trial of the energy stage with total energy [e] and
    energy cutoff [cutoff]. *)
Definition energy_trial (e : Q) (cutoff : pyval) : trial :=
  {| tr_params := [("electrons", VDict [("cutoff", cutoff)])];
     tr_outputs := Some (VDict [("energy", VDict [("total", VFloat e)])]) |}.

(** The context after the futures of [entries] have resolved. *)
Definition ctx_after (energy kspacing : option cdict) : ctx :=
  {| ctx_parameters := []; ctx_energy := energy; ctx_kspacing := kspacing;
     ctx_results_energy := []; ctx_results_kspacing := [];
     ctx_energy_cutoff := None; ctx_kspacing_sel := None |}.

Definition example_candidates : list (string * Q * pyval) :=
  [("a", (-5)%Q, VInt 10); ("b", (-12)%Q, VInt 20); ("c", (-3)%Q, VInt 30)].

Definition example_energy_ctx : ctx :=
  ctx_after (Some (map (fun '(l, e, p) => (l, CNode (energy_trial e p))) example_candidates)) None.

(** The same energies for the k-spacing stage, keyed [0_1], [0_2], [0_3]. *)
Definition example_kspacing_ctx : ctx :=
  ctx_after None (Some [("0_1", CNode (energy_trial (-5) VNone));
                        ("0_2", CNode (energy_trial (-12) VNone));
                        ("0_3", CNode (energy_trial (-3) VNone))]).

Definition unit_lattice : lattice := {| rec_len1 := 1; rec_len2 := 1; rec_len3 := 1 |}.

(** Every trial finishes ok with total energy -1 eV. *)
Definition runner_ok (stage : string) (i : nat) (p : params) : option pyval :=
  Some (VDict [("energy", VDict [("total", VFloat (-1))])]).

(** Every trial finishes ok with total energy +1 eV. *)
Definition runner_positive (stage : string) (i : nat) (p : params) : option pyval :=
  Some (VDict [("energy", VDict [("total", VFloat 1)])]).


(** The futures finish in the order of submission. *)
Definition resolve_in_order (stage : string) (l : list (list string * trial)) := l.

Definition base_parameters : params := [("run", VDict [("ground-state", VBool true)])].

(** Work chain parameters with a ground-state run and a 30 Ry cutoff. *)
Definition base_parameters_cutoff : params :=
  [("run", VDict [("ground-state", VBool true)]);
   ("electrons", VDict [("cutoff", VStr "30 Ry")])].

Definition sweep_of (energies spacings : list string) : sweep_inputs :=
  {| wc_parameters := base_parameters_cutoff; wc_structure := unit_lattice;
     wc_energy_list := energies; wc_kspacing_list := spacings |}.

(** The labels of the submissions of a stage. *)
Definition stage_labels (stage : string) (evs : list event) : list string :=
  flat_map (fun ev => match ev with
                      | Submit st l _ => if String.eqb st stage then [l] else []
                      | _ => []
                      end) evs.

Definition parser_node (params : list (string * pyval)) : calc_node :=
  {| node_options := [("output_filename", DEFAULT_OUTPUT_FILE)];
     node_parameters := params;
     node_retrieve_temporary_list := [DEFAULT_OUTPUT_FILE; DEFAULT_ERROR_FILE] |}.

(** [ase.units] restricted to the energy units of the INQ output. *)
Definition ase_units_ev (name : string) : option Q :=
  if String.eqb name "eV" then Some 1%Q
  else if String.eqb name "Hartree" then Some (2721138624 # 100000000)%Q
  else None.

Definition si_kind : kind := {| kind_symbols := ["Si"]; kind_weights := [1] |}.

Definition example_structure : structure :=
  {| site_kinds := [si_kind; si_kind];
     cell_rows := [["1.0"; "0.0"; "0.0"]; ["0.0"; "1.0"; "0.0"]; ["0.0"; "0.0"; "1.0"]];
     cell_scale := "5.43";
     atoms := [("Si", ["0.0"; "0.0"; "0.0"]); ("Si", ["0.25"; "0.25"; "0.25"])] |}.


(* ------------------------------------------------------------------ *)
(** ** Reading a finished trial *)

(** [results['energy']['total']] of a trial that finished ok, as a number. *)
Definition trial_energy (t : trial) : option Q :=
  match tr_outputs t with
  | Some out => match total_energy out with Ok e => py_num e | Exc _ => None end
  | None => None
  end.

(** [inputs['electrons']['cutoff']] of a trial. *)
Definition trial_cutoff (t : trial) : res pyval :=
  el <- py_getitem (VDict (tr_params t)) "electrons" ;; py_getitem el "cutoff".

(** The stage, label and parameters of a submission. *)
Definition submission (ev : event) : option (string * string * params) :=
  match ev with
  | Submit st l p => Some (st, l, p)
  | _ => None
  end.

(** The trials of a stage submitted with the parameters [ps] under the
    context keys [keys], the first one as trial [idx]. *)
Fixpoint stage_trials (runner : string -> nat -> params -> option pyval) (stage : string)
  (ps : params) (keys : list string) (idx : nat) : list (string * trial) :=
  match keys with
  | [] => []
  | k :: keys' =>
      (k, {| tr_params := ps; tr_outputs := runner stage idx ps |})
        :: stage_trials runner stage ps keys' (S idx)
  end.


(** An energy value whose context key ['_'.join(value.split())] has no
    ['.'], so that [to_context] assigns it at a single level. *)
Definition nodot_key (e : string) : Prop := ~ In "."%char (list_ascii_of_string (energy_key e)).

(** A context entry that is the node of a trial with a total energy not
    below [q]. *)
Definition node_not_below (q : Q) (kt : string * centry) : Prop :=
  exists t e, snd kt = CNode t /\ trial_energy t = Some e /\ q <= e.

(** A line of an energy section of the INQ output, [<name> ... <value> <unit>],
    and the entry it gives. *)
Definition energy_line_entry (py_float ase_unit : string -> option Q) (l : string)
  (nv : string * Q) : Prop :=
  py_contains "Energy:" l = false /\ py_contains "Forces:" l = false /\ l <> "" /\
  exists u qu n qn,
    py_index (py_split_ws l) (-1) = Ok u /\ ase_unit u = Some qu /\
    py_index (py_split_ws l) (-2) = Ok n /\ py_float n = Some qn /\
    py_index (py_split_ws l) 0 = Ok (fst nv) /\ snd nv = (qn * qu)%Q.

Definition store_energy (d : list (string * pyval)) (nv : string * Q) :=
  dict_set d (fst nv) (VFloat (snd nv)).

(** [sep.join(pieces)] on character lists. *)
Fixpoint join_chars (sep : ascii) (ps : list (list ascii)) : list ascii :=
  match ps with
  | [] => []
  | [p] => p
  | p :: ps' => p ++ sep :: join_chars sep ps'
  end.

(** An INQ output: an energy section closed by a blank line, then the
    completion line. *)
Definition example_output : string :=
  String.append "Energy:" (String nl (String.append " total  -0.5 Hartree"
    (String nl (String nl (String.append "AiiDA DONE" (String nl "")))))).

(* ================================================================== *)
(** * Properties *)

(** C1 (selection): on the candidates (a,-5,10), (b,-12,20), (c,-3,30) the
    spec's global-minimum selection gives 20, but [check_energy] selects 30,
    the last candidate with a negative energy, because [min_energy] stays 0;
    [check_kspacing] does the same with the spacings 0.1, 0.2, 0.3. *)
Theorem check_energy_selects_last_negative :
  spec_select example_candidates = Some (VInt 20) /\
  fst (check_energy example_energy_ctx) = [CtxSet "energy_cutoff" (VInt 30)] /\
  fst (check_kspacing dec_float example_kspacing_ctx) = [CtxSet "kspacing" (VFloat (3 # 10))].
Proof. vm_compute. repeat split; reflexivity. Qed.

(** C2 (deduplication): the spacings 0.6 and 0.7 derive to the same mesh
    2 2 2 on a lattice with unit reciprocal vectors, and [run_kspacing]
    submits a trial for each of them: [kpoint_mesh[:][1]] is always the
    initial [''], so no spacing is ever skipped. *)
Theorem run_kspacing_submits_duplicate_meshes :
  derive unit_lattice (6 # 10) = derive unit_lattice (7 # 10) /\
  stage_labels "kspacing" (fst (run_sweep dec_float runner_ok resolve_in_order
                                  (sweep_of ["30 Ry"] ["0.6"; "0.7"])))
  = ["kspacing_0_6"; "kspacing_0_7"].
Proof. vm_compute. split; reflexivity. Qed.

(** C8 (missing files): with the output file absent from the retrieved
    folder, [parse] does not return ERROR_MISSING_OUTPUT_FILES: the check
    compares against the list of files requested for retrieval, and opening
    the missing file raises. *)
Theorem parse_missing_output_file_raises :
  parse dec_float ase_units_ev (parser_node base_parameters) [(DEFAULT_ERROR_FILE, "")]
  = Exc FileNotFoundError.
Proof. vm_compute. reflexivity. Qed.

(** ** Dictionary and list facts *)

Open Scope list_scope.

Lemma dict_get_set_eq {V} (d : list (string * V)) k v : dict_get (dict_set d k v) k = Some v.
Proof.
  induction d as [|[k' v'] d IH]; simpl.
  - rewrite String.eqb_refl. reflexivity.
  - destruct (String.eqb k k') eqn:E; simpl.
    + apply String.eqb_eq in E. subst. rewrite String.eqb_refl. reflexivity.
    + rewrite E. exact IH.
Qed.

Lemma dict_get_set_neq {V} (d : list (string * V)) k k' v :
  k <> k' -> dict_get (dict_set d k v) k' = dict_get d k'.
Proof.
  intros Hne. induction d as [|[k0 v0] d IH]; simpl.
  - destruct (String.eqb k' k) eqn:E; [apply String.eqb_eq in E; congruence | reflexivity].
  - destruct (String.eqb k k0) eqn:E; simpl.
    + apply String.eqb_eq in E. subst.
      destruct (String.eqb k' k0) eqn:E'; [apply String.eqb_eq in E'; congruence | reflexivity].
    + rewrite IH. reflexivity.
Qed.


Lemma py_index_last {A} (pre : list A) (x : A) : py_index (pre ++ [x]) (-1) = Ok x.
Proof.
  unfold py_index. cbv zeta. rewrite length_app. simpl length.
  change ((-1 <? 0)%Z) with true. cbv iota.
  replace (Z.of_nat (length pre + 1) + -1)%Z with (Z.of_nat (length pre)) by lia.
  replace ((Z.of_nat (length pre) <? 0)%Z) with false by (symmetry; apply Z.ltb_ge; lia).
  replace ((Z.of_nat (length pre + 1) <=? Z.of_nat (length pre))%Z) with false
    by (symmetry; apply Z.leb_gt; lia).
  simpl. rewrite Nat2Z.id, nth_error_app2, Nat.sub_diag by lia. reflexivity.
Qed.

Lemma py_index_empty {A} (i : Z) : py_index (@nil A) i = Exc IndexError.
Proof.
  unfold py_index. destruct i; reflexivity.
Qed.

Lemma bind_ok {A B} (a : A) (k : A -> res B) : bind (Ok a) k = k a.
Proof. reflexivity. Qed.

Lemma read_lines_found temp name content :
  dict_get temp (fmt_opt name) = Some content -> read_lines temp name = Ok (file_lines content).
Proof. intros H. unfold read_lines. rewrite H. reflexivity. Qed.

(** When the retrieval check passes and the files can be read, [parse]
    reaches the completion check on the last line of the output file. *)
Lemma parse_reaches_completion_check py_float ase_unit node temp content :
  subset_of (expected_files node) (node_retrieve_temporary_list node) = true ->
  (truthy (results_name node) = true ->
   exists rc, dict_get temp (fmt_opt (results_name node)) = Some rc) ->
  dict_get temp (fmt_opt (get_option node "output_filename")) = Some content ->
  exists results_lines,
    parse py_float ase_unit node temp =
    final <- py_index (file_lines content) (-1) ;;
    if negb (py_contains "AiiDA DONE" final) then Exc AttributeError
    else
      result_dict <- parse_sections py_float ase_unit
        (if truthy (results_name node) then results_lines else file_lines content) None [] ;;
      Ok (ExitOK, [("output_parameters", VDict result_dict)]).
Proof.
  intros Hsub Hres Hout. unfold parse. rewrite Hsub. cbv zeta. simpl negb. cbv iota.
  destruct (truthy (results_name node)) eqn:Ht.
  - destruct (Hres eq_refl) as [rc Hrc].
    exists (file_lines rc).
    rewrite (read_lines_found _ _ _ Hrc), bind_ok, (read_lines_found _ _ _ Hout), bind_ok.
    reflexivity.
  - exists []. rewrite bind_ok, (read_lines_found _ _ _ Hout), bind_ok. reflexivity.
Qed.

(** C5 (completion sentinel), as the code has it: once the expected files
    are retrieved and readable and the output has a last line, a last line
    without [AiiDA DONE] makes [parse] raise [AttributeError] (it looks up
    [ERROR_OUTPUT_STDOUT_INCOMPLETE], which is not declared), so no exit
    code is returned and nothing is emitted; a last line that merely
    contains [AiiDA DONE] counts as complete and [parse] goes on to read the
    sections. *)
Theorem parse_incomplete_iff_no_sentinel py_float ase_unit node temp content pre final :
  subset_of (expected_files node) (node_retrieve_temporary_list node) = true ->
  (truthy (results_name node) = true ->
   exists rc, dict_get temp (fmt_opt (results_name node)) = Some rc) ->
  dict_get temp (fmt_opt (get_option node "output_filename")) = Some content ->
  file_lines content = pre ++ [final] ->
  (py_contains "AiiDA DONE" final = false ->
   parse py_float ase_unit node temp = Exc AttributeError) /\
  (py_contains "AiiDA DONE" final = true ->
   exists lines, parse py_float ase_unit node temp =
     (rd <- parse_sections py_float ase_unit lines None [] ;;
      Ok (ExitOK, [("output_parameters", VDict rd)]))).
Proof.
  intros Hsub Hres Hout Hlines.
  destruct (parse_reaches_completion_check py_float ase_unit node temp content Hsub Hres Hout)
    as [rl ->].
  rewrite Hlines, py_index_last, bind_ok. split.
  - intros ->. reflexivity.
  - intros ->. eexists. reflexivity.
Qed.

(** C10 (empty output): once the expected files are retrieved and readable,
    an output file with no line makes [parse] raise IndexError at
    [output_lines[-1]]; and whenever [parse] gets past the retrieval check
    and returns an exit code, the output file has at least one line. *)
Theorem parse_needs_an_output_line py_float ase_unit node temp :
  subset_of (expected_files node) (node_retrieve_temporary_list node) = true ->
  (truthy (results_name node) = true ->
   exists rc, dict_get temp (fmt_opt (results_name node)) = Some rc) ->
  (forall content,
     dict_get temp (fmt_opt (get_option node "output_filename")) = Some content ->
     file_lines content = [] ->
     parse py_float ase_unit node temp = Exc IndexError) /\
  (forall r, parse py_float ase_unit node temp = Ok r ->
   exists content,
     dict_get temp (fmt_opt (get_option node "output_filename")) = Some content /\
     file_lines content <> []).
Proof.
  intros Hsub Hres. split.
  - intros content Hout Hnil.
    destruct (parse_reaches_completion_check py_float ase_unit node temp content Hsub Hres Hout)
      as [rl ->].
    rewrite Hnil, py_index_empty. reflexivity.
  - intros r Hp.
    destruct (dict_get temp (fmt_opt (get_option node "output_filename"))) as [content|] eqn:Hout.
    + exists content. split; [reflexivity|]. intros Hnil.
      destruct (parse_reaches_completion_check py_float ase_unit node temp content Hsub Hres Hout)
        as [rl Heq].
      rewrite Heq, Hnil, py_index_empty in Hp. discriminate.
    + exfalso. revert Hp. unfold parse. rewrite Hsub. cbv zeta. simpl negb. cbv iota.
      assert (Hro : read_lines temp (get_option node "output_filename") = Exc FileNotFoundError)
        by (unfold read_lines; rewrite Hout; reflexivity).
      destruct (truthy (results_name node)) eqn:Ht.
      * destruct (Hres eq_refl) as [rc Hrc].
        rewrite (read_lines_found _ _ _ Hrc), bind_ok, Hro. discriminate.
      * rewrite bind_ok, Hro. discriminate.
Qed.

(** C9 (missing run type): parameters without a [run] section make
    [prepare_for_submission] raise AttributeError at
    [list(run_type.keys())], before the [run_type is None] test, once the
    structure has converted to ASE atoms (a structure that does not convert
    raises ValueError earlier); exit code 202 is never returned and no
    script is produced. *)
Theorem prepare_without_run_raises float_repr parameters s :
  dict_get parameters "run" = None ->
  (get_ase s = Ok tt -> prepare_for_submission float_repr parameters s = Exc AttributeError) /\
  (get_ase s = Exc ValueError -> prepare_for_submission float_repr parameters s = Exc ValueError) /\
  (forall r, prepare_for_submission float_repr parameters s <> Ok r).
Proof.
  intros H. unfold prepare_for_submission, dict_pop. rewrite H.
  split; [|split].
  - intros ->. reflexivity.
  - intros ->. reflexivity.
  - intros r. destruct (get_ase s) as [[]|e]; discriminate.
Qed.

Lemma parse_incomplete_iff_no_sentinel_witness :
  parse dec_float ase_units_ev (parser_node base_parameters)
    [(DEFAULT_OUTPUT_FILE, "step 1
stopped
")]
  = Exc AttributeError.
Proof.
  apply (proj1 (parse_incomplete_iff_no_sentinel dec_float ase_units_ev
                  (parser_node base_parameters)
                  [(DEFAULT_OUTPUT_FILE, "step 1
stopped
")] "step 1
stopped
" ["step 1"] "stopped" eq_refl
                  (fun H => match Bool.diff_false_true H with end)
                  eq_refl eq_refl)).
  reflexivity.
Defined.

Lemma parse_needs_an_output_line_witness :
  parse dec_float ase_units_ev (parser_node base_parameters) [(DEFAULT_OUTPUT_FILE, "")]
  = Exc IndexError.
Proof.
  apply (proj1 (parse_needs_an_output_line dec_float ase_units_ev
                  (parser_node base_parameters) [(DEFAULT_OUTPUT_FILE, "")] eq_refl
                  (fun H => match Bool.diff_false_true H with end)) "").
  - reflexivity.
  - reflexivity.
Defined.

Lemma prepare_without_run_raises_witness :
  prepare_for_submission (fun _ => "0.0")
    [("electrons", VDict [("cutoff", VStr "30 Ry")])] example_structure
  = Exc AttributeError.
Proof. apply prepare_without_run_raises; reflexivity. Defined.

(** ** The k-point mesh derivation *)

Lemma mesh_count_antitone (len s1 s2 : Q) :
  0 <= len -> 0 < s2 -> s2 < s1 -> (mesh_count len s1 <= mesh_count len s2)%nat.
Proof.
  intros Hl Hs2 Hlt.
  assert (Hs1 : 0 < s1) by (apply Qlt_trans with s2; assumption).
  assert (Hinv : / s1 < / s2) by (apply (proj1 (Qinv_lt_contravar s2 s1 Hs2 Hs1)); exact Hlt).
  assert (Hdiv : len / s1 <= len / s2).
  { unfold Qdiv. rewrite (Qmult_comm len (/ s1)), (Qmult_comm len (/ s2)).
    apply Qmult_le_compat_r; [apply Qlt_le_weak; exact Hinv | exact Hl]. }
  apply Qceiling_resp_le in Hdiv.
  unfold mesh_count. lia.
Qed.

Lemma mesh_count_compat (len s s' : Q) : s == s' -> mesh_count len s = mesh_count len s'.
Proof.
  intros H. unfold mesh_count.
  assert (Hc : Qceiling (len / s) = Qceiling (len / s')) by (apply Qceiling_comp; rewrite H; reflexivity).
  rewrite Hc. reflexivity.
Qed.

(** C7 (mesh derivation): [derive] gives the same mesh for equal spacings
    over the same lattice, and for spacings [s1 > s2 > 0] no component of
    the mesh for [s2] is smaller than the one for [s1] (the reciprocal
    vector lengths being non-negative). *)
Theorem derive_deterministic_antitone (lat : lattice) (s1 s2 : Q) :
  0 <= rec_len1 lat -> 0 <= rec_len2 lat -> 0 <= rec_len3 lat ->
  0 < s2 -> s2 < s1 ->
  (forall s s', s == s' -> derive lat s = derive lat s') /\
  (fst (fst (derive lat s1)) <= fst (fst (derive lat s2)))%nat /\
  (snd (fst (derive lat s1)) <= snd (fst (derive lat s2)))%nat /\
  (snd (derive lat s1) <= snd (derive lat s2))%nat.
Proof.
  intros H1 H2 H3 Hs2 Hlt. split; [|simpl; split; [|split]].
  - intros s s' Heq. unfold derive.
    rewrite (mesh_count_compat _ _ _ Heq), (mesh_count_compat (rec_len2 lat) _ _ Heq),
      (mesh_count_compat (rec_len3 lat) _ _ Heq).
    reflexivity.
  - apply mesh_count_antitone; assumption.
  - apply mesh_count_antitone; assumption.
  - apply mesh_count_antitone; assumption.
Qed.

Lemma derive_deterministic_antitone_witness :
  derive unit_lattice (3 # 10) = derive unit_lattice (6 # 20) /\
  (fst (fst (derive unit_lattice (6 # 10))) <= fst (fst (derive unit_lattice (3 # 10))))%nat.
Proof.
  destruct (derive_deterministic_antitone unit_lattice (6 # 10) (3 # 10)) as [Hd [Ha _]].
  - vm_compute. discriminate.
  - vm_compute. discriminate.
  - vm_compute. discriminate.
  - reflexivity.
  - reflexivity.
  - split; [apply Hd; reflexivity | exact Ha].
Defined.

(** ** Splitting and joining strings *)

Lemma list_ascii_of_string_app (a b : string) :
  list_ascii_of_string (String.append a b) = list_ascii_of_string a ++ list_ascii_of_string b.
Proof. induction a as [|c a IH]; simpl; [reflexivity|rewrite IH; reflexivity]. Qed.

Lemma list_ascii_of_string_inj (a b : string) :
  list_ascii_of_string a = list_ascii_of_string b -> a = b.
Proof.
  intros H. rewrite <- (string_of_list_ascii_of_string a), <- (string_of_list_ascii_of_string b).
  rewrite H. reflexivity.
Qed.

Lemma py_join_chars (sep : ascii) (ps : list string) :
  list_ascii_of_string (py_join (String sep "") ps) =
  join_chars sep (map list_ascii_of_string ps).
Proof.
  unfold py_join. induction ps as [|p ps IH]; [reflexivity|].
  destruct ps as [|q ps]; [reflexivity|].
  change (String.concat (String sep "") (p :: q :: ps))
    with (String.append p (String.append (String sep "") (String.concat (String sep "") (q :: ps)))).
  rewrite !list_ascii_of_string_app, IH. reflexivity.
Qed.

Lemma split_sep_chars_nonempty (sep : ascii) cs : forall cur, split_sep_chars sep cs cur <> [].
Proof.
  induction cs as [|c cs IH]; intros cur; simpl; [discriminate|].
  destruct (Ascii.eqb c sep); [discriminate|apply IH].
Qed.

Lemma join_chars_cons (sep : ascii) x ys :
  ys <> [] -> join_chars sep (x :: ys) = x ++ sep :: join_chars sep ys.
Proof. destruct ys; [congruence|reflexivity]. Qed.

Lemma split_sep_chars_join (sep : ascii) cs : forall cur,
  join_chars sep (split_sep_chars sep cs cur) = rev cur ++ cs.
Proof.
  induction cs as [|c cs IH]; intros cur; simpl; [rewrite app_nil_r; reflexivity|].
  destruct (Ascii.eqb c sep) eqn:E.
  - apply Ascii.eqb_eq in E. subst c.
    rewrite join_chars_cons by apply split_sep_chars_nonempty. rewrite IH. reflexivity.
  - rewrite IH. simpl. rewrite <- app_assoc. reflexivity.
Qed.

Lemma split_sep_chars_pieces (sep : ascii) cs : forall cur p x,
  In p (split_sep_chars sep cs cur) -> In x p -> In x cs \/ In x cur.
Proof.
  induction cs as [|c cs IH]; intros cur p x Hp Hx; simpl in Hp.
  - destruct Hp as [<-|[]]. right. apply in_rev. exact Hx.
  - destruct (Ascii.eqb c sep).
    + destruct Hp as [<-|Hp].
      * right. apply in_rev. exact Hx.
      * destruct (IH [] p x Hp Hx) as [H|[]]. left. right. exact H.
    + destruct (IH (c :: cur) p x Hp Hx) as [H|[H|H]].
      * left. right. exact H.
      * left. left. exact H.
      * right. exact H.
Qed.

Lemma split_sep_chars_app (sep : ascii) p : forall rest cur,
  ~ In sep p -> split_sep_chars sep (p ++ rest) cur = split_sep_chars sep rest (rev p ++ cur).
Proof.
  induction p as [|c p IH]; intros rest cur Hn; [reflexivity|].
  simpl. destruct (Ascii.eqb c sep) eqn:E.
  - apply Ascii.eqb_eq in E. subst c. exfalso. apply Hn. left. reflexivity.
  - rewrite IH; [rewrite <- app_assoc; reflexivity|]. intros H. apply Hn. right. exact H.
Qed.

Lemma split_join_chars (sep : ascii) ps :
  ps <> [] -> Forall (fun p => ~ In sep p) ps -> split_sep_chars sep (join_chars sep ps) [] = ps.
Proof.
  induction ps as [|p ps IH]; intros Hne Hall; [congruence|].
  inversion Hall as [|? ? Hp Hps]; subst.
  destruct ps as [|q ps].
  - simpl. rewrite <- (app_nil_r p) at 1. rewrite split_sep_chars_app by exact Hp.
    simpl. rewrite app_nil_r, rev_involutive. reflexivity.
  - change (join_chars sep (p :: q :: ps)) with (p ++ sep :: join_chars sep (q :: ps)).
    rewrite split_sep_chars_app by exact Hp. cbn [split_sep_chars]. rewrite Ascii.eqb_refl.
    rewrite app_nil_r, rev_involutive, IH; [reflexivity|discriminate|exact Hps].
Qed.

(** [check_kspacing] turns the context key of a spacing back into the
    spacing: for a spacing written without [_] (as [str()] writes every
    float), [".".join(key.split("_"))] of the key
    ["_".join(str(kspacing).split("."))] is [str(kspacing)] again, so the
    spacing it reports and records is the one submitted. *)
Theorem kspacing_key_round_trip (s : string) :
  ~ In "_"%char (list_ascii_of_string s) ->
  py_join "." (py_split_on "_" (py_join "_" (py_split_on "." s))) = s /\
  forall py_float, float_of py_float (py_join "." (py_split_on "_" (py_join "_" (py_split_on "." s))))
                   = float_of py_float s.
Proof.
  intros Hs.
  assert (H : py_join "." (py_split_on "_" (py_join "_" (py_split_on "." s))) = s).
  { apply list_ascii_of_string_inj.
    unfold py_split_on at 1.
    rewrite (py_join_chars "_"%char). unfold py_split_on.
    rewrite map_map.
    rewrite (map_ext (fun x => list_ascii_of_string (string_of_list_ascii x)) (fun x => x))
      by (intros; apply list_ascii_of_string_of_list_ascii).
    rewrite map_id.
    rewrite split_join_chars.
    - rewrite (py_join_chars "."%char), map_map.
      rewrite (map_ext (fun x => list_ascii_of_string (string_of_list_ascii x)) (fun x => x))
        by (intros; apply list_ascii_of_string_of_list_ascii).
      rewrite map_id, split_sep_chars_join. reflexivity.
    - apply split_sep_chars_nonempty.
    - apply Forall_forall. intros p Hp Hin.
      destruct (split_sep_chars_pieces _ _ _ _ _ Hp Hin) as [Hx|[]]. exact (Hs Hx). }
  split; [exact H|]. intros py_float. rewrite H. reflexivity.
Qed.

Lemma kspacing_key_round_trip_witness :
  py_join "." (py_split_on "_" (py_join "_" (py_split_on "." "0.25"))) = "0.25".
Proof.
  apply (kspacing_key_round_trip "0.25").
  simpl. intros [H|[H|[H|[H|[]]]]]; discriminate.
Defined.


(** ** The work chain *)

Lemma run_outline_cons s ss c :
  run_outline (s :: ss) c =
  let '(evs, r) := s c in
  match r with
  | Exc e => (evs, Excepted e)
  | Ok (Halt code) => (evs, Finished code)
  | Ok (Next c') => let '(evs', fin) := run_outline ss c' in (evs ++ evs', fin)
  end.
Proof. reflexivity. Qed.

Lemma run_outline_cons_next s ss c evs c' :
  s c = (evs, Ok (Next c')) ->
  run_outline (s :: ss) c = (evs ++ fst (run_outline ss c'), snd (run_outline ss c')).
Proof.
  intros H. rewrite run_outline_cons, H. destruct (run_outline ss c'). reflexivity.
Qed.

Lemma run_outline_cons_stop s ss c evs r :
  s c = (evs, r) -> (forall c', r <> Ok (Next c')) -> fst (run_outline (s :: ss) c) = evs.
Proof.
  intros H Hr. rewrite run_outline_cons, H.
  destruct r as [[c'|code]|e]; [exfalso; exact (Hr c' eq_refl)|reflexivity|reflexivity].
Qed.

(** A context key without ['.'] is a single level of the context. *)
Lemma py_split_on_nodot (sep : ascii) (s : string) :
  ~ In sep (list_ascii_of_string s) -> py_split_on sep s = [s].
Proof.
  intros H. unfold py_split_on.
  rewrite <- (app_nil_r (list_ascii_of_string s)).
  rewrite split_sep_chars_app by exact H.
  cbn [split_sep_chars]. rewrite app_nil_r, rev_involutive. cbn [map].
  rewrite string_of_list_ascii_of_string. reflexivity.
Qed.

Lemma join_chars_in (sep : ascii) ps x :
  In x (join_chars sep ps) -> x = sep \/ exists p, In p ps /\ In x p.
Proof.
  induction ps as [|p ps IH]; [intros []|].
  destruct ps as [|q ps].
  - intros H. right. exists p. split; [left; reflexivity|exact H].
  - intros H. change (join_chars sep (p :: q :: ps)) with (p ++ sep :: join_chars sep (q :: ps)) in H.
    apply in_app_or in H. destruct H as [H|[H|H]].
    + right. exists p. split; [left; reflexivity|exact H].
    + left. symmetry. exact H.
    + destruct (IH H) as [Hs|[p' [Hp' Hx]]]; [left; exact Hs|].
      right. exists p'. split; [right; exact Hp'|exact Hx].
Qed.

Lemma split_sep_chars_no_sep (sep : ascii) cs : forall cur p,
  ~ In sep cur -> In p (split_sep_chars sep cs cur) -> ~ In sep p.
Proof.
  induction cs as [|c cs IH]; intros cur p Hcur Hp; cbn [split_sep_chars] in Hp.
  - destruct Hp as [<-|[]]. intros H. apply Hcur. apply in_rev. exact H.
  - destruct (Ascii.eqb c sep) eqn:E.
    + destruct Hp as [<-|Hp].
      * intros H. apply Hcur. apply in_rev. exact H.
      * exact (IH [] p (fun H : In _ [] => H) Hp).
    + apply (IH (c :: cur) p); [|exact Hp].
      intros [H|H]; [subst c; rewrite Ascii.eqb_refl in E; discriminate|exact (Hcur H)].
Qed.

(** The context key ['_'.join(str(kspacing).split('.'))] has no ['.']. *)
Lemma kspacing_key_nodot (s : string) :
  ~ In "."%char (list_ascii_of_string (py_join "_" (py_split_on "." s))).
Proof.
  rewrite (py_join_chars "_"%char). unfold py_split_on. rewrite map_map.
  rewrite (map_ext (fun x => list_ascii_of_string (string_of_list_ascii x)) (fun x => x))
    by (intros; apply list_ascii_of_string_of_list_ascii).
  rewrite map_id. intros H.
  destruct (join_chars_in _ _ _ H) as [Hs|[p [Hp Hx]]]; [discriminate|].
  exact (split_sep_chars_no_sep "."%char _ [] p (fun H : In _ [] => H) Hp Hx).
Qed.



Lemma stage_trials_params runner st ps keys : forall idx k t,
  In (k, t) (stage_trials runner st ps keys idx) ->
  tr_params t = ps /\ exists i, tr_outputs t = runner st i ps.
Proof.
  induction keys as [|k0 keys IH]; intros idx k t Hin; simpl in Hin; [contradiction|].
  destruct Hin as [Heq|Hin].
  - injection Heq as _ <-. split; [reflexivity|exists idx; reflexivity].
  - exact (IH _ _ _ Hin).
Qed.




(** Futures with single-level keys never make the assignment fail. *)
Lemma assign_all_single s l :
  Forall (fun pt => exists k, fst pt = [k]) l -> exists s', assign_all s l = Ok s'.
Proof.
  revert s. induction l as [|[p t] l IH]; intros s Hall; [exists s; reflexivity|].
  inversion Hall as [|? ? [k Hk] Hl]; subst. cbn [fst] in Hk. subst p.
  cbn [assign_all ctx_assign]. rewrite bind_ok. exact (IH _ Hl).
Qed.








(** The events of the steps. *)
Lemma run_energy_loop_events runner ps energies : forall idx stage ev,
  In ev (fst (run_energy_loop runner ps energies idx stage)) ->
  exists l, ev = Submit "energy" l ps.
Proof.
  induction energies as [|e rest IH]; intros idx stage ev Hin; cbn [run_energy_loop] in Hin.
  - contradiction.
  - destruct (ctx_assign _ _ _) as [d|err].
    + destruct (run_energy_loop runner ps rest (S idx) (Some d)) as [evs r] eqn:E.
      cbn [fst] in Hin. destruct Hin as [<-|Hin]; [eexists; reflexivity|].
      apply (IH (S idx) (Some d)). rewrite E. exact Hin.
    + destruct Hin as [<-|[]]. eexists. reflexivity.
Qed.

Lemma run_energy_events runner resolve inp c ev :
  In ev (fst (run_energy runner resolve inp c)) -> exists l, ev = Submit "energy" l (ctx_parameters c).
Proof.
  unfold run_energy.
  assert (H := run_energy_loop_events runner (ctx_parameters c) (wc_energy_list inp) 0 (ctx_energy c)).
  destruct (run_energy_loop runner (ctx_parameters c) (wc_energy_list inp) 0 (ctx_energy c))
    as [evs [[subs stage]|e]]; cbn [fst] in H.
  - destruct (assign_all stage (resolve "energy" subs)); exact (H ev).
  - exact (H ev).
Qed.

Lemma run_energy_frame runner resolve inp c evs c' :
  run_energy runner resolve inp c = (evs, Ok (Next c')) ->
  ctx_parameters c' = ctx_parameters c /\ ctx_kspacing c' = ctx_kspacing c /\
  ctx_energy_cutoff c' = ctx_energy_cutoff c.
Proof.
  unfold run_energy.
  destruct (run_energy_loop runner (ctx_parameters c) (wc_energy_list inp) 0 (ctx_energy c))
    as [evs0 [[subs stage]|e]]; [|discriminate].
  destruct (assign_all stage (resolve "energy" subs)) as [stage'|e]; [|discriminate].
  intros H. injection H as _ <-. repeat split.
Qed.

Lemma run_kspacing_loop_events py_float runner ps lat ks : forall idx mesh stage ev,
  In ev (fst (run_kspacing_loop py_float runner ps lat ks idx mesh stage)) ->
  exists l, ev = Submit "kspacing" l ps.
Proof.
  induction ks as [|k rest IH]; intros idx mesh stage ev Hin; cbn [run_kspacing_loop] in Hin;
    [contradiction|].
  destruct (float_of py_float k) as [q|e]; [|contradiction].
  destruct (py_index mesh 1) as [seen|e]; [|contradiction].
  destruct (negb (py_in_entry (mesh_string (derive lat q)) seen)).
  - destruct (ctx_assign _ _ _) as [d|err].
    + match type of Hin with
      | context [run_kspacing_loop _ _ _ _ _ ?i ?m ?st] =>
          destruct (run_kspacing_loop py_float runner ps lat rest i m st) as [evs r] eqn:E
      end.
      cbn [fst] in Hin. destruct Hin as [<-|Hin]; [eexists; reflexivity|].
      eapply IH. rewrite E. exact Hin.
    + destruct Hin as [<-|[]]. eexists. reflexivity.
  - exact (IH _ _ _ ev Hin).
Qed.

Lemma run_kspacing_events py_float runner resolve inp c ev :
  In ev (fst (run_kspacing py_float runner resolve inp c)) ->
  exists l, ev = Submit "kspacing" l (ctx_parameters c).
Proof.
  unfold run_kspacing. destruct (ctx_energy_cutoff c); [|intros []].
  match goal with
  | |- context [run_kspacing_loop ?f ?rn ?ps ?lat ?ks ?i ?m ?st] =>
      assert (H := run_kspacing_loop_events f rn ps lat ks i m st);
      destruct (run_kspacing_loop f rn ps lat ks i m st) as [evs [[subs stage]|e]]
  end; cbn [fst] in H.
  - destruct (assign_all stage (resolve "kspacing" subs)); exact (H ev).
  - exact (H ev).
Qed.

(** The events of the check loops are failure reports. *)
Lemma check_energy_loop_events entries m cutoff res0 :
  forall ev, In ev (fst (check_energy_loop entries m cutoff res0)) ->
  exists l, ev = ReportFailed "energy" l.
Proof.
  revert cutoff res0. induction entries as [|[k [t|d]] rest IH]; intros cutoff res0 ev Hin;
    cbn [check_energy_loop] in Hin; [contradiction| |].
  - destruct (tr_outputs t) as [out|].
    + destruct (bind (total_energy out) _) as [[[e c'] b]|e]; simpl in Hin;
        [exact (IH _ _ ev Hin)|contradiction].
    + destruct Hin as [<-|[]]. eexists. reflexivity.
  - destruct (nested_check d); simpl in Hin; [|contradiction].
    destruct Hin as [<-|[]]. eexists. reflexivity.
Qed.

Lemma check_kspacing_loop_events py_float entries m ks res0 :
  forall ev, In ev (fst (check_kspacing_loop py_float entries m ks res0)) ->
  exists l, ev = ReportFailed "kspacing" l.
Proof.
  revert ks res0. induction entries as [|[k w] rest IH]; intros ks res0 ev Hin;
    cbn [check_kspacing_loop] in Hin; [contradiction|].
  destruct (float_of py_float _) as [q|e]; [|contradiction].
  destruct w as [t|d].
  - destruct (tr_outputs t) as [out|].
    + destruct (bind (total_energy out) _) as [[e b]|e]; simpl in Hin;
        [exact (IH _ _ ev Hin)|contradiction].
    + destruct Hin as [<-|[]]. eexists. reflexivity.
  - destruct (nested_check d); simpl in Hin; [|contradiction].
    destruct Hin as [<-|[]]. eexists. reflexivity.
Qed.

Lemma check_energy_loop_ok entries : forall m cutoff res0 evs x,
  check_energy_loop entries m cutoff res0 = (evs, Ok (inl x)) -> evs = [].
Proof.
  induction entries as [|[k [t|d]] rest IH]; intros m cutoff res0 evs x H;
    cbn [check_energy_loop] in H.
  - injection H as <- _. reflexivity.
  - destruct (tr_outputs t) as [out|]; [|discriminate].
    destruct (bind (total_energy out) _) as [[[e c'] b]|e]; [exact (IH _ _ _ _ _ H)|discriminate].
  - destruct (nested_check d); discriminate.
Qed.

(** On success, [check_energy] reports nothing and then assigns
    [ctx.energy_cutoff]. *)
Lemma check_energy_next c evs c' :
  check_energy c = (evs, Ok (Next c')) ->
  exists v, evs = [CtxSet "energy_cutoff" v] /\ ctx_energy_cutoff c' = Some v /\
            ctx_parameters c' = ctx_parameters c /\ ctx_kspacing c' = ctx_kspacing c.
Proof.
  unfold check_energy. destruct (ctx_energy c) as [entries|]; [|discriminate].
  destruct (check_energy_loop entries (VInt 0) (VInt 0) (ctx_results_energy c))
    as [evs0 [[[cutoff results0]|code]|e]] eqn:E; intros H; try discriminate.
  injection H as <- <-. exists cutoff. split; [|repeat split].
  rewrite (check_energy_loop_ok _ _ _ _ _ _ E). reflexivity.
Qed.

Lemma check_energy_no_submit c st l p : ~ In (Submit st l p) (fst (check_energy c)).
Proof.
  unfold check_energy. destruct (ctx_energy c) as [entries|]; [|intros []].
  assert (Hev := check_energy_loop_events entries (VInt 0) (VInt 0) (ctx_results_energy c)).
  destruct (check_energy_loop entries (VInt 0) (VInt 0) (ctx_results_energy c))
    as [evs0 [[[cutoff results0]|code]|e]]; simpl in Hev |- *; intros Hin.
  - apply in_app_or in Hin. destruct Hin as [Hin|[Hin|[]]]; [|discriminate].
    destruct (Hev _ Hin) as [l' H']. discriminate.
  - destruct (Hev _ Hin) as [l' H']. discriminate.
  - destruct (Hev _ Hin) as [l' H']. discriminate.
Qed.

Lemma check_energy_stop c evs r :
  check_energy c = (evs, r) -> (forall c', r <> Ok (Next c')) ->
  forall ev, In ev evs -> exists l, ev = ReportFailed "energy" l.
Proof.
  unfold check_energy. destruct (ctx_energy c) as [entries|].
  2:{ intros H _ ev Hin. injection H as <- _. destruct Hin. }
  assert (Hev := check_energy_loop_events entries (VInt 0) (VInt 0) (ctx_results_energy c)).
  destruct (check_energy_loop entries (VInt 0) (VInt 0) (ctx_results_energy c))
    as [evs0 [[[cutoff results0]|code]|e]]; simpl in Hev; intros H Hr ev Hin;
    injection H as <- <-; [exfalso; eapply Hr; reflexivity| |]; exact (Hev ev Hin).
Qed.

(** After stage 2 has been submitted, the work chain submits nothing more. *)
Lemma outline_tail_no_submit py_float c st l p :
  ~ In (Submit st l p) (fst (run_outline [check_kspacing py_float; results] c)).
Proof.
  rewrite run_outline_cons.
  assert (Hev : forall st l p, ~ In (Submit st l p) (fst (check_kspacing py_float c))).
  { intros st' l' p'. unfold check_kspacing. destruct (ctx_kspacing c) as [entries|]; [|intros []].
    assert (H := check_kspacing_loop_events py_float entries (VInt 0) (VInt 0) (ctx_results_kspacing c)).
    destruct (check_kspacing_loop py_float entries (VInt 0) (VInt 0) (ctx_results_kspacing c))
      as [evs0 [[[ks results0]|code]|e]]; simpl in H |- *; intros Hin.
    - apply in_app_or in Hin. destruct Hin as [Hin|[Hin|[]]]; [|discriminate].
      destruct (H _ Hin) as [l'' Hl]. discriminate.
    - destruct (H _ Hin) as [l'' Hl]. discriminate.
    - destruct (H _ Hin) as [l'' Hl]. discriminate. }
  specialize (Hev st l p).
  destruct (check_kspacing py_float c) as [evs [[c'|code]|e]]; simpl in Hev |- *;
    [|exact Hev|exact Hev].
  unfold results. intros Hin.
  destruct (ctx_energy_cutoff c'), (ctx_kspacing_sel c'); simpl in Hin;
    apply in_app_or in Hin; destruct Hin as [Hin|Hin]; try exact (Hev Hin);
    try destruct Hin as [Hin|[]]; try discriminate; contradiction.
Qed.

(** The events of a whole run: the stage-1 submissions, all with the work
    chain's parameters, and then either events that are no submission, or
    the assignment of [ctx.energy_cutoff] followed by events whose
    submissions all belong to stage 2 and carry the work chain's
    parameters. *)
Lemma run_sweep_shape py_float runner resolve inp :
  exists ev1 rest,
    fst (run_sweep py_float runner resolve inp) = ev1 ++ rest /\
    (forall ev, In ev ev1 -> exists l, ev = Submit "energy" l (wc_parameters inp)) /\
    ((forall st l p, ~ In (Submit st l p) rest) \/
     exists v ev3, rest = CtxSet "energy_cutoff" v :: ev3 /\
       forall st l p, In (Submit st l p) ev3 -> st = "kspacing" /\ p = wc_parameters inp).
Proof.
  unfold run_sweep.
  assert (H1 := run_energy_events runner resolve inp (setup inp)).
  destruct (run_energy runner resolve inp (setup inp)) as [ev1 r1] eqn:E1.
  cbn [fst setup ctx_parameters] in H1.
  exists ev1.
  destruct r1 as [[c1|code]|e].
  2,3: exists []; rewrite (run_outline_cons_stop _ _ _ _ _ E1) by (intros ? ?; discriminate);
       rewrite app_nil_r; split; [reflexivity|]; split; [exact H1|left; intros ? ? ? []].
  destruct (run_energy_frame _ _ _ _ _ _ E1) as [Hp1 _]. cbn [setup ctx_parameters] in Hp1.
  rewrite (run_outline_cons_next _ _ _ _ _ E1). cbn [fst].
  eexists. split; [reflexivity|]. split; [exact H1|].
  destruct (check_energy c1) as [ev2 r2] eqn:E2.
  destruct r2 as [[c2|code]|e].
  2,3: left; rewrite (run_outline_cons_stop _ _ _ _ _ E2) by (intros ? ?; discriminate);
       intros st l p Hin; apply (check_energy_no_submit c1 st l p); rewrite E2; exact Hin.
  destruct (check_energy_next _ _ _ E2) as [v [Hev2 [_ [Hp2 _]]]]. subst ev2.
  rewrite (run_outline_cons_next _ _ _ _ _ E2). cbn [fst].
  right. exists v. eexists. split; [reflexivity|].
  intros st l p Hin.
  destruct (run_kspacing py_float runner resolve inp c2) as [ev3 r3] eqn:E3.
  assert (Hk : forall st l p, In (Submit st l p) ev3 -> st = "kspacing" /\ p = wc_parameters inp).
  { intros st' l' p' Hi.
    destruct (run_kspacing_events py_float runner resolve inp c2 (Submit st' l' p')) as [l'' Heq];
      [rewrite E3; exact Hi|].
    injection Heq as -> _ ->. split; [reflexivity|congruence]. }
  destruct r3 as [[c3|code]|e].
  - rewrite (run_outline_cons_next _ _ _ _ _ E3) in Hin. cbn [fst] in Hin.
    apply in_app_or in Hin. destruct Hin as [Hin|Hin]; [exact (Hk _ _ _ Hin)|].
    exfalso. exact (outline_tail_no_submit _ _ _ _ _ Hin).
  - rewrite (run_outline_cons_stop _ _ _ _ _ E3) in Hin by (intros ? ?; discriminate).
    exact (Hk _ _ _ Hin).
  - rewrite (run_outline_cons_stop _ _ _ _ _ E3) in Hin by (intros ? ?; discriminate).
    exact (Hk _ _ _ Hin).
Qed.

(** Every trial of the work chain, in either stage, is submitted with the
    parameters the work chain was given, and every stage-2 submission
    comes after the assignment of [ctx.energy_cutoff], with no stage-2
    submission before it. *)
Theorem submissions_use_workchain_parameters py_float runner resolve inp :
  (forall st l p, In (Submit st l p) (fst (run_sweep py_float runner resolve inp)) ->
     p = wc_parameters inp) /\
  (forall l p, In (Submit "kspacing" l p) (fst (run_sweep py_float runner resolve inp)) ->
     exists pre v post,
       fst (run_sweep py_float runner resolve inp) = pre ++ CtxSet "energy_cutoff" v :: post /\
       (forall l' p', ~ In (Submit "kspacing" l' p') pre)).
Proof.
  destruct (run_sweep_shape py_float runner resolve inp) as [ev1 [rest [Heq [H1 Hrest]]]].
  rewrite Heq. split.
  - intros st l p Hin. apply in_app_or in Hin. destruct Hin as [Hin|Hin].
    + destruct (H1 _ Hin) as [l' Hl]. injection Hl as _ _ ->. reflexivity.
    + destruct Hrest as [Hn|[v [ev3 [-> H3]]]]; [exfalso; exact (Hn _ _ _ Hin)|].
      destruct Hin as [Hin|Hin]; [discriminate|exact (proj2 (H3 _ _ _ Hin))].
  - intros l p Hin. apply in_app_or in Hin.
    assert (Hn1 : forall l' p', ~ In (Submit "kspacing" l' p') ev1).
    { intros l' p' Hi. destruct (H1 _ Hi) as [l'' Hl]. discriminate. }
    destruct Hin as [Hin|Hin]; [exfalso; exact (Hn1 _ _ Hin)|].
    destruct Hrest as [Hn|[v [ev3 [-> H3]]]]; [exfalso; exact (Hn _ _ _ Hin)|].
    exists ev1, v, ev3. split; [reflexivity|exact Hn1].
Qed.

(** C4 (stage 2 after stage 1), a run of the code: the work chain is given
    parameters with a 30 Ry cutoff and the energy list [40 Ry], and every
    trial finishes with total energy +1 eV. Stage 1 selects the cutoff 0
    (no energy is below 0), yet the stage-2 trial is submitted with the
    work chain's parameters, whose cutoff is the baseline 30 Ry. *)
Theorem stage2_runs_with_baseline_cutoff :
  run_sweep dec_float runner_positive resolve_in_order (sweep_of ["40 Ry"] ["0.6"]) =
    ([Submit "energy" "energy_40_Ry" base_parameters_cutoff;
      CtxSet "energy_cutoff" (VInt 0);
      Submit "kspacing" "kspacing_0_6" base_parameters_cutoff;
      CtxSet "kspacing" (VInt 0);
      Out "suggested" (VDict [("energy", VInt 0); ("kspacing", VInt 0)])],
     Excepted ValueError) /\
  dict_get base_parameters_cutoff "electrons" = Some (VDict [("cutoff", VStr "30 Ry")]).
Proof. vm_compute. split; reflexivity. Qed.

Lemma run_kspacing_empty py_float runner resolve inp c v :
  wc_kspacing_list inp = [] -> resolve "kspacing" [] = [] -> ctx_energy_cutoff c = Some v ->
  exists c3, run_kspacing py_float runner resolve inp c = ([], Ok (Next c3)) /\
             ctx_kspacing c3 = ctx_kspacing c.
Proof.
  intros Hk Hr Hc. unfold run_kspacing. rewrite Hc, Hk. cbn [run_kspacing_loop].
  rewrite Hr. cbn [assign_all]. eexists. split; reflexivity.
Qed.

(** C6 (empty stage), as the code has it: a stage with no values never
    assigns its context entry, so the check step that reads it raises
    [AttributeError] and the work chain excepts; no selection is assigned
    for that stage and no [suggested] output is emitted. With an empty
    energy list the run emits nothing at all; with an empty k-spacing list
    nothing is submitted in stage 2 and, once stage 1 has assigned its
    cutoff, the run excepts. *)
Theorem empty_stage_list_excepts py_float runner resolve inp :
  (forall st l, Permutation (resolve st l) l) ->
  (wc_energy_list inp = [] ->
     run_sweep py_float runner resolve inp = ([], Excepted AttributeError)) /\
  (wc_kspacing_list inp = [] ->
     (forall l p, ~ In (Submit "kspacing" l p) (fst (run_sweep py_float runner resolve inp))) /\
     (forall v, ~ In (Out "suggested" v) (fst (run_sweep py_float runner resolve inp))) /\
     (forall v, ~ In (CtxSet "kspacing" v) (fst (run_sweep py_float runner resolve inp))) /\
     ((exists v, In (CtxSet "energy_cutoff" v) (fst (run_sweep py_float runner resolve inp))) ->
      snd (run_sweep py_float runner resolve inp) = Excepted AttributeError)).
Proof.
  intros Hperm.
  assert (Hnil : forall st, resolve st [] = []).
  { intros st. apply Permutation_nil. apply Permutation_sym. apply Hperm. }
  split.
  - intros Hen. unfold run_sweep. rewrite run_outline_cons.
    unfold run_energy at 1. rewrite Hen. cbn [run_energy_loop].
    rewrite Hnil. reflexivity.
  - intros Hks. unfold run_sweep.
    assert (H1 := run_energy_events runner resolve inp (setup inp)).
    destruct (run_energy runner resolve inp (setup inp)) as [ev1 r1] eqn:E1. simpl in H1.
    assert (Hn1 : forall ev, In ev ev1 -> exists l p, ev = Submit "energy" l p).
    { intros ev Hi. destruct (H1 ev Hi) as [l Hl]. eexists. eexists. exact Hl. }
    clear H1.
    destruct r1 as [[c1|code]|e].
    2,3: rewrite (run_outline_cons_stop _ _ _ _ _ E1) by (intros ? ?; discriminate);
      repeat split; [intros l p Hi| intros v Hi| intros v Hi| intros [v Hi]];
      destruct (Hn1 _ Hi) as [l' [p' Heq]]; discriminate.
    destruct (run_energy_frame _ _ _ _ _ _ E1) as [_ [Hk1 _]].
    rewrite (run_outline_cons_next _ _ _ _ _ E1). cbn [fst snd].
    destruct (check_energy c1) as [ev2 r2] eqn:E2.
    destruct r2 as [[c2|code]|e].
    2,3: rewrite (run_outline_cons_stop _ _ _ _ _ E2) by (intros ? ?; discriminate);
      assert (Hn2 := check_energy_stop _ _ _ E2 ltac:(intros ? ?; discriminate));
      repeat split; [intros l p Hi| intros v Hi| intros v Hi| intros [v Hi]];
      apply in_app_or in Hi; destruct Hi as [Hi|Hi];
      [destruct (Hn1 _ Hi) as [l' [p' Heq]]; discriminate
      |destruct (Hn2 _ Hi) as [l' Heq]; discriminate
      |destruct (Hn1 _ Hi) as [l' [p' Heq]]; discriminate
      |destruct (Hn2 _ Hi) as [l' Heq]; discriminate
      |destruct (Hn1 _ Hi) as [l' [p' Heq]]; discriminate
      |destruct (Hn2 _ Hi) as [l' Heq]; discriminate
      |destruct (Hn1 _ Hi) as [l' [p' Heq]]; discriminate
      |destruct (Hn2 _ Hi) as [l' Heq]; discriminate].
    destruct (check_energy_next _ _ _ E2) as [v [-> [Hv [_ Hk2]]]].
    rewrite (run_outline_cons_next _ _ _ _ _ E2). cbn [fst snd].
    destruct (run_kspacing_empty py_float runner resolve inp c2 v Hks (Hnil _) Hv)
      as [c3 [E3 Hc3]].
    rewrite (run_outline_cons_next _ _ _ _ _ E3). cbn [fst snd].
    assert (Hck : check_kspacing py_float c3 = ([], Exc AttributeError)).
    { unfold check_kspacing. rewrite Hc3, Hk2, Hk1. reflexivity. }
    rewrite run_outline_cons, Hck. cbn [fst snd].
    repeat split; [intros l p Hi| intros v' Hi| intros v' Hi];
      rewrite !app_nil_r in Hi; apply in_app_or in Hi; destruct Hi as [Hi|[Hi|[]]];
      try discriminate; destruct (Hn1 _ Hi) as [l' [p' Heq]]; discriminate.
Qed.

Lemma empty_stage_list_excepts_witness :
  run_sweep dec_float runner_ok resolve_in_order (sweep_of [] ["0.6"]) =
    ([], Excepted AttributeError) /\
  snd (run_sweep dec_float runner_ok resolve_in_order (sweep_of ["30 Ry"] [])) =
    Excepted AttributeError.
Proof.
  split.
  - apply (proj1 (empty_stage_list_excepts dec_float runner_ok resolve_in_order
                    (sweep_of [] ["0.6"]) (fun st l => Permutation_refl _))).
    reflexivity.
  - apply (proj2 (empty_stage_list_excepts dec_float runner_ok resolve_in_order
                    (sweep_of ["30 Ry"] []) (fun st l => Permutation_refl _))).
    + reflexivity.
    + exists (VStr "30 Ry"). vm_compute. right. left. reflexivity.
Defined.

(** An empty energy list: no value is ever selected, but the run ends with
    an [AttributeError] raised by reading [ctx.energy], not with a
    selection error of its own; an empty k-spacing list ends the same way
    after stage 1 has assigned its cutoff. *)
Lemma empty_list_raises_attribute_error :
  run_sweep dec_float runner_ok resolve_in_order (sweep_of [] ["0.6"]) =
    ([], Excepted AttributeError) /\
  last (fst (run_sweep dec_float runner_ok resolve_in_order (sweep_of ["30 Ry"] [])))
       (Out "" VNone) = CtxSet "energy_cutoff" (VStr "30 Ry") /\
  snd (run_sweep dec_float runner_ok resolve_in_order (sweep_of ["30 Ry"] [])) =
    Excepted AttributeError.
Proof. vm_compute. repeat split; reflexivity. Qed.

(* ------------------------------------------------------------------ *)
(** ** Further properties of the work chain *)

Lemma check_energy_loop_code entries : forall m cutoff res0 evs code,
  check_energy_loop entries m cutoff res0 = (evs, Ok (inr code)) ->
  code = INQ_CALCULATION_FAILED.
Proof.
  induction entries as [|[k [t|d]] rest IH]; intros m cutoff res0 evs code H;
    cbn [check_energy_loop] in H; [discriminate| |].
  - destruct (tr_outputs t) as [out|]; [|congruence].
    destruct (bind (total_energy out) _) as [[[e c'] b]|e]; [exact (IH _ _ _ _ _ H)|discriminate].
  - destruct (nested_check d); congruence.
Qed.

Lemma check_kspacing_loop_code py_float entries : forall m ks res0 evs code,
  check_kspacing_loop py_float entries m ks res0 = (evs, Ok (inr code)) ->
  code = INQ_CALCULATION_FAILED.
Proof.
  induction entries as [|[k w] rest IH]; intros m ks res0 evs code H;
    cbn [check_kspacing_loop] in H; [discriminate|].
  destruct (float_of py_float _) as [q|e]; [|discriminate].
  destruct w as [t|d].
  - destruct (tr_outputs t) as [out|]; [|congruence].
    destruct (bind (total_energy out) _) as [[e b]|e]; [exact (IH _ _ _ _ _ H)|discriminate].
  - destruct (nested_check d); congruence.
Qed.

Lemma check_energy_halt c evs code :
  check_energy c = (evs, Ok (Halt code)) -> code = INQ_CALCULATION_FAILED.
Proof.
  unfold check_energy. destruct (ctx_energy c) as [entries|]; [|discriminate].
  destruct (check_energy_loop entries (VInt 0) (VInt 0) (ctx_results_energy c))
    as [evs0 [[[cutoff results0]|code0]|e]] eqn:E; intros H; try discriminate.
  injection H as _ <-. exact (check_energy_loop_code _ _ _ _ _ _ E).
Qed.

Lemma check_kspacing_halt py_float c evs code :
  check_kspacing py_float c = (evs, Ok (Halt code)) -> code = INQ_CALCULATION_FAILED.
Proof.
  unfold check_kspacing. destruct (ctx_kspacing c) as [entries|]; [|discriminate].
  destruct (check_kspacing_loop py_float entries (VInt 0) (VInt 0) (ctx_results_kspacing c))
    as [evs0 [[[ks results0]|code0]|e]] eqn:E; intros H; try discriminate.
  injection H as _ <-. exact (check_kspacing_loop_code _ _ _ _ _ _ _ E).
Qed.

(** An outline whose steps only ever halt with 401 and whose last step
    never continues ends with 401 or an exception. *)
Lemma run_outline_end ss s : forall c,
  (forall s' c evs code, In s' ss -> s' c = (evs, Ok (Halt code)) ->
                         code = INQ_CALCULATION_FAILED) ->
  (forall c evs st, s c <> (evs, Ok st)) ->
  snd (run_outline (ss ++ [s]) c) = Finished INQ_CALCULATION_FAILED \/
  exists e, snd (run_outline (ss ++ [s]) c) = Excepted e.
Proof.
  induction ss as [|a ss IH]; intros c Hh Hs.
  - simpl. destruct (s c) as [evs [st|e]] eqn:E; [exfalso; exact (Hs _ _ _ E)|].
    right. exists e. reflexivity.
  - cbn [app]. rewrite run_outline_cons.
    destruct (a c) as [evs [[c'|code]|e]] eqn:E.
    + destruct (IH c' (fun s' c0 evs0 code Hi => Hh s' c0 evs0 code (or_intror Hi)) Hs)
        as [H|[e H]]; destruct (run_outline (ss ++ [s]) c'); simpl in H |- *;
        [left; exact H|right; exists e; exact H].
    + left. simpl. f_equal. exact (Hh a c evs code (or_introl eq_refl) E).
    + right. exists e. reflexivity.
Qed.

(** The convergence work chain never finishes with exit status 0: it ends
    with INQ_CALCULATION_FAILED or with an exception, since [results]
    always raises. *)
Theorem sweep_never_finishes_ok py_float runner resolve inp :
  snd (run_sweep py_float runner resolve inp) = Finished INQ_CALCULATION_FAILED \/
  exists e, snd (run_sweep py_float runner resolve inp) = Excepted e.
Proof.
  unfold run_sweep.
  change [run_energy runner resolve inp; check_energy; run_kspacing py_float runner resolve inp;
          check_kspacing py_float; results]
    with ([run_energy runner resolve inp; check_energy; run_kspacing py_float runner resolve inp;
           check_kspacing py_float] ++ [results]).
  apply run_outline_end.
  - intros s' c evs code Hi H. simpl in Hi.
    destruct Hi as [<-|[<-|[<-|[<-|[]]]]].
    + unfold run_energy in H.
      destruct (run_energy_loop _ _ _ _ _) as [? [[subs stage]|?]]; [|discriminate].
      destruct (assign_all _ _); discriminate.
    + exact (check_energy_halt _ _ _ H).
    + unfold run_kspacing in H. destruct (ctx_energy_cutoff c); [|discriminate].
      destruct (run_kspacing_loop _ _ _ _ _ _ _ _) as [? [[subs stage]|?]]; [|discriminate].
      destruct (assign_all _ _); discriminate.
    + exact (check_kspacing_halt _ _ _ _ H).
  - intros c evs st H. unfold results in H.
    destruct (ctx_energy_cutoff c), (ctx_kspacing_sel c); discriminate.
Qed.

Lemma bind_inv {A B} (c : res A) (k : A -> res B) (b : B) :
  bind c k = Ok b -> exists a, c = Ok a /\ k a = Ok b.
Proof. destruct c as [a|e]; simpl; [intros H; exists a; split; [reflexivity|exact H]|discriminate]. Qed.

(** The selection loop of [check_energy]: the selected cutoff is that of
    the last trial whose energy is below [min_energy], or the initial one. *)
Lemma check_energy_loop_selection entries : forall m qm cutoff res0 evs sel res1,
  py_num m = Some qm ->
  check_energy_loop entries m cutoff res0 = (evs, Ok (inl (sel, res1))) ->
  (sel = cutoff /\ Forall (node_not_below qm) entries) \/
  exists pre k t post e,
    entries = pre ++ (k, CNode t) :: post /\ trial_energy t = Some e /\ e < qm /\
    trial_cutoff t = Ok sel /\ Forall (node_not_below qm) post.
Proof.
  induction entries as [|[k [t|d]] rest IH]; intros m qm cutoff res0 evs sel res1 Hm H;
    cbn [check_energy_loop] in H.
  - injection H as _ <- _. left. split; [reflexivity|constructor].
  - destruct (tr_outputs t) as [out|] eqn:Ht; [|discriminate].
    destruct (bind (total_energy out) _) as [[[e c'] b]|e] eqn:Eb; [|discriminate].
    apply bind_inv in Eb as [energy [He Eb]].
    apply bind_inv in Eb as [el [Hel Eb]].
    apply bind_inv in Eb as [cut [Hcut Eb]].
    apply bind_inv in Eb as [b' [Hb Eb]].
    injection Eb as <- <- <-.
    unfold py_lt in Hb. rewrite Hm in Hb.
    destruct (py_num energy) as [qe|] eqn:Hqe; [|discriminate].
    injection Hb as <-.
    assert (Hte : trial_energy t = Some qe).
    { unfold trial_energy. rewrite Ht, He. exact Hqe. }
    assert (Htc : trial_cutoff t = Ok cut).
    { unfold trial_cutoff. rewrite Hel. exact Hcut. }
    destruct (IH _ _ _ _ _ _ _ Hm H) as [[Hsel Hall]|[pre [k' [t' [post [e' [Hp Hrest]]]]]]].
    + destruct (Qle_bool qm qe) eqn:Hle; simpl in Hsel.
      * left. split; [exact Hsel|]. constructor; [|exact Hall].
        exists t, qe. split; [reflexivity|]. split; [exact Hte|]. apply Qle_bool_iff. exact Hle.
      * right. exists [], k, t, rest, qe. split; [reflexivity|].
        split; [exact Hte|]. split.
        { apply Qnot_le_lt. intros Hq. apply Qle_bool_iff in Hq. congruence. }
        split; [subst sel; exact Htc|exact Hall].
    + right. exists ((k, CNode t) :: pre), k', t', post, e'.
      split; [rewrite Hp; reflexivity|exact Hrest].
  - destruct (nested_check d); discriminate.
Qed.

(** [check_energy] assigns to [ctx.energy_cutoff] the cutoff of the last
    trial (in the order of [ctx.energy]) whose total energy is negative, or
    0 when no total energy is negative. *)
Theorem check_energy_selects_last_below_zero c entries evs c' :
  ctx_energy c = Some entries ->
  check_energy c = (evs, Ok (Next c')) ->
  (ctx_energy_cutoff c' = Some (VInt 0) /\ Forall (node_not_below 0) entries) \/
  exists pre k t post e v,
    entries = pre ++ (k, CNode t) :: post /\ trial_energy t = Some e /\ e < 0 /\
    trial_cutoff t = Ok v /\ ctx_energy_cutoff c' = Some v /\
    Forall (node_not_below 0) post.
Proof.
  intros Hc. unfold check_energy. rewrite Hc.
  destruct (check_energy_loop entries (VInt 0) (VInt 0) (ctx_results_energy c))
    as [evs0 [[[sel results0]|code]|e]] eqn:E; intros H; try discriminate.
  injection H as _ <-. cbn [ctx_energy_cutoff].
  destruct (check_energy_loop_selection entries (VInt 0) 0 _ _ _ _ _ eq_refl E)
    as [[-> Hall]|[pre [k [t [post [e [Hp [Hte [Hlt [Htc Hall]]]]]]]]]].
  - left. split; [reflexivity|exact Hall].
  - right. exists pre, k, t, post, e, sel. repeat split; assumption.
Qed.

Lemma check_energy_selects_last_below_zero_witness :
  exists pre k t post e,
    map (fun '(l, e, p) => (l, CNode (energy_trial e p))) example_candidates
      = pre ++ (k, CNode t) :: post /\ trial_energy t = Some e /\ e < 0 /\
    trial_cutoff t = Ok (VInt 30) /\ Forall (node_not_below 0) post.
Proof.
  destruct (check_energy_selects_last_below_zero example_energy_ctx
              (map (fun '(l, e, p) => (l, CNode (energy_trial e p))) example_candidates) _ _
              eq_refl ltac:(reflexivity))
    as [[H _]|[pre [k [t [post [e [v [Hp [Hte [Hlt [Htc [Hv Hall]]]]]]]]]]]];
    [cbn in H; discriminate|].
  cbn in Hv. injection Hv as <-.
  exists pre, k, t, post, e. repeat split; assumption.
Defined.

Lemma check_kspacing_loop_selection py_float entries : forall m qm ks res0 evs sel res1,
  py_num m = Some qm ->
  check_kspacing_loop py_float entries m ks res0 = (evs, Ok (inl (sel, res1))) ->
  (sel = ks /\ Forall (node_not_below qm) entries) \/
  exists pre k t post e q,
    entries = pre ++ (k, CNode t) :: post /\ trial_energy t = Some e /\ e < qm /\
    float_of py_float (py_join "." (py_split_on "_" k)) = Ok q /\ sel = VFloat q /\
    Forall (node_not_below qm) post.
Proof.
  induction entries as [|[k w] rest IH]; intros m qm ks res0 evs sel res1 Hm H;
    cbn [check_kspacing_loop] in H.
  - injection H as _ <- _. left. split; [reflexivity|constructor].
  - destruct (float_of py_float (py_join "." (py_split_on "_" k))) as [q|e] eqn:Hq;
      [|discriminate].
    destruct w as [t|d]; [|destruct (nested_check d); discriminate].
    destruct (tr_outputs t) as [out|] eqn:Ht; [|discriminate].
    destruct (bind (total_energy out) _) as [[e b]|e] eqn:Eb; [|discriminate].
    apply bind_inv in Eb as [energy [He Eb]].
    apply bind_inv in Eb as [b' [Hb Eb]].
    injection Eb as <- <-.
    unfold py_lt in Hb. rewrite Hm in Hb.
    destruct (py_num energy) as [qe|] eqn:Hqe; [|discriminate].
    injection Hb as <-.
    assert (Hte : trial_energy t = Some qe).
    { unfold trial_energy. rewrite Ht, He. exact Hqe. }
    destruct (IH _ _ _ _ _ _ _ Hm H)
      as [[Hsel Hall]|[pre [k' [t' [post [e' [q' [Hp Hrest]]]]]]]].
    + destruct (Qle_bool qm qe) eqn:Hle; simpl in Hsel.
      * left. split; [exact Hsel|]. constructor; [|exact Hall].
        exists t, qe. split; [reflexivity|]. split; [exact Hte|]. apply Qle_bool_iff. exact Hle.
      * right. exists [], k, t, rest, qe, q. split; [reflexivity|].
        split; [exact Hte|]. split.
        { apply Qnot_le_lt. intros Hq'. apply Qle_bool_iff in Hq'. congruence. }
        split; [exact Hq|]. split; [exact Hsel|exact Hall].
    + right. exists ((k, CNode t) :: pre), k', t', post, e', q'.
      split; [rewrite Hp; reflexivity|exact Hrest].
Qed.

(** [check_kspacing] assigns to [ctx.kspacing] the spacing (the context key
    turned back into a float) of the last trial whose total energy is
    negative, or 0 when no total energy is negative. *)
Theorem check_kspacing_selects_last_below_zero py_float c entries evs c' :
  ctx_kspacing c = Some entries ->
  check_kspacing py_float c = (evs, Ok (Next c')) ->
  (ctx_kspacing_sel c' = Some (VInt 0) /\ Forall (node_not_below 0) entries) \/
  exists pre k t post e q,
    entries = pre ++ (k, CNode t) :: post /\ trial_energy t = Some e /\ e < 0 /\
    float_of py_float (py_join "." (py_split_on "_" k)) = Ok q /\
    ctx_kspacing_sel c' = Some (VFloat q) /\
    Forall (node_not_below 0) post.
Proof.
  intros Hc. unfold check_kspacing. rewrite Hc.
  destruct (check_kspacing_loop py_float entries (VInt 0) (VInt 0) (ctx_results_kspacing c))
    as [evs0 [[[sel results0]|code]|e]] eqn:E; intros H; try discriminate.
  injection H as _ <-. cbn [ctx_kspacing_sel].
  destruct (check_kspacing_loop_selection py_float entries (VInt 0) 0 _ _ _ _ _ eq_refl E)
    as [[-> Hall]|[pre [k [t [post [e [q [Hp [Hte [Hlt [Hq [-> Hall]]]]]]]]]]]].
  - left. split; [reflexivity|exact Hall].
  - right. exists pre, k, t, post, e, q. repeat split; assumption.
Qed.

Lemma check_kspacing_selects_last_below_zero_witness :
  exists pre k t post e,
    [("0_1", CNode (energy_trial (-5) VNone)); ("0_2", CNode (energy_trial (-12) VNone));
     ("0_3", CNode (energy_trial (-3) VNone))] = pre ++ (k, CNode t) :: post /\
    trial_energy t = Some e /\ e < 0 /\
    float_of dec_float (py_join "." (py_split_on "_" k)) = Ok (3 # 10) /\
    Forall (node_not_below 0) post.
Proof.
  destruct (check_kspacing_selects_last_below_zero dec_float example_kspacing_ctx
              [("0_1", CNode (energy_trial (-5) VNone)); ("0_2", CNode (energy_trial (-12) VNone));
               ("0_3", CNode (energy_trial (-3) VNone))] _ _ eq_refl
              ltac:(vm_compute; reflexivity))
    as [[H _]|[pre [k [t [post [e [q [Hp [Hte [Hlt [Hq [Hv Hall]]]]]]]]]]]];
    [cbn in H; discriminate|].
  cbn in Hv. injection Hv as <-.
  exists pre, k, t, post, e. repeat split; assumption.
Defined.

(* ------------------------------------------------------------------ *)
(** ** The submissions of the two stages *)

Lemma run_energy_loop_single runner ps energies : forall idx stage,
  Forall nodot_key energies ->
  map submission (fst (run_energy_loop runner ps energies idx stage)) =
    map (fun e => Some ("energy", String.append "energy_" (energy_key e), ps)) energies /\
  exists subs s, snd (run_energy_loop runner ps energies idx stage) = Ok (subs, s) /\
    Forall (fun pt => exists k, fst pt = [k]) subs.
Proof.
  induction energies as [|e rest IH]; intros idx stage Hdot.
  - split; [reflexivity|]. exists [], stage. split; [reflexivity|constructor].
  - inversion Hdot as [|? ? Hd Hdot']; subst. unfold nodot_key in Hd.
    cbn [run_energy_loop]. rewrite (py_split_on_nodot _ _ Hd). cbn [ctx_assign].
    match goal with
    | |- context [run_energy_loop runner ps rest (S idx) ?st] =>
        destruct (IH (S idx) st Hdot') as [Hm [subs [s [Hr Hs]]]];
        destruct (run_energy_loop runner ps rest (S idx) st) as [evs r]
    end.
    cbn [fst snd] in Hm, Hr. subst r. split.
    + cbn [fst map submission]. f_equal. exact Hm.
    + eexists. eexists. split; [reflexivity|]. constructor; [eexists; reflexivity|exact Hs].
Qed.

(** When no energy value gives a context key with a ['.'], [run_energy]
    submits one trial per energy value, in the order of [energy_list],
    labelled [energy_<'_'.join(value.split())>], each with the parameters
    of the work chain unchanged; the futures finishing in any order then
    let the outline continue, with the same parameters. *)
Theorem run_energy_submissions runner resolve inp c :
  (forall st l, Permutation (resolve st l) l) ->
  Forall (fun e => ~ In "."%char (list_ascii_of_string (energy_key e))) (wc_energy_list inp) ->
  map submission (fst (run_energy runner resolve inp c)) =
    map (fun e => Some ("energy", String.append "energy_" (energy_key e), ctx_parameters c))
        (wc_energy_list inp) /\
  exists c', snd (run_energy runner resolve inp c) = Ok (Next c') /\
             ctx_parameters c' = ctx_parameters c.
Proof.
  intros Hperm Hdot. unfold run_energy.
  destruct (run_energy_loop_single runner (ctx_parameters c) (wc_energy_list inp) 0
              (ctx_energy c) Hdot) as [Hm [subs [s [Hr Hs]]]].
  destruct (run_energy_loop runner (ctx_parameters c) (wc_energy_list inp) 0 (ctx_energy c))
    as [evs r].
  cbn [fst snd] in Hm, Hr. subst r.
  destruct (assign_all_single s (resolve "energy" subs)) as [s' Hs'].
  { apply Forall_forall. intros pt Hin. apply (Permutation_in _ (Hperm _ _)) in Hin.
    exact (proj1 (Forall_forall _ _) Hs pt Hin). }
  rewrite Hs'. split; [exact Hm|]. eexists. split; reflexivity.
Qed.

Lemma run_energy_submissions_witness :
  map submission (fst (run_energy runner_ok resolve_in_order (sweep_of ["10 Ry"; "20 Ry"] ["0.6"])
                         (setup (sweep_of ["10 Ry"; "20 Ry"] ["0.6"])))) =
  [Some ("energy", "energy_10_Ry", base_parameters_cutoff);
   Some ("energy", "energy_20_Ry", base_parameters_cutoff)].
Proof.
  refine (eq_trans (proj1 (run_energy_submissions runner_ok resolve_in_order
                             (sweep_of ["10 Ry"; "20 Ry"] ["0.6"])
                             (setup (sweep_of ["10 Ry"; "20 Ry"] ["0.6"]))
                             (fun st l => Permutation_refl _) _)) _).
  - repeat constructor; vm_compute; intros H;
      repeat (destruct H as [H|H]; [discriminate H|]); exact H.
  - reflexivity.
Defined.

Lemma dict_set_twice {V} (d : list (string * V)) k v w :
  dict_set (dict_set d k v) k w = dict_set d k w.
Proof.
  induction d as [|[k' v'] d IH]; simpl.
  - rewrite String.eqb_refl. reflexivity.
  - destruct (String.eqb k k') eqn:E; simpl; rewrite E; [reflexivity|rewrite IH; reflexivity].
Qed.

Lemma py_index_second {A} (x y : A) rest : py_index (x :: y :: rest) 1 = Ok y.
Proof.
  unfold py_index. cbn [length].
  replace ((1 <? 0)%Z) with false by reflexivity.
  replace ((Z.of_nat (S (S (length rest))) <=? 1)%Z) with false by (symmetry; apply Z.leb_gt; lia).
  reflexivity.
Qed.

(** No mesh string is contained in [''], the entry the duplicate test of
    [run_kspacing] looks at. *)
Lemma mesh_not_in_empty m : py_in_entry (mesh_string m) (MStr "") = false.
Proof.
  destruct m as [[a b] c]. unfold mesh_string, py_join. cbn [String.concat].
  destruct (nat_to_string a); reflexivity.
Qed.

Lemma run_kspacing_loop_single py_float runner ps lat ks : forall idx x rest stage,
  Forall (fun s => py_float s <> None) ks ->
  map submission (fst (run_kspacing_loop py_float runner ps lat ks idx (x :: MStr "" :: rest) stage)) =
    map (fun s => Some ("kspacing", String.append "kspacing_" (py_join "_" (py_split_on "." s)), ps))
        ks /\
  exists subs s,
    snd (run_kspacing_loop py_float runner ps lat ks idx (x :: MStr "" :: rest) stage)
      = Ok (subs, s) /\
    Forall (fun pt => exists k, fst pt = [k]) subs.
Proof.
  induction ks as [|k ks IH]; intros idx x rest stage Hf.
  - split; [reflexivity|]. exists [], stage. split; [reflexivity|constructor].
  - inversion Hf as [|? ? Hk Hks]; subst.
    cbn [run_kspacing_loop].
    destruct (py_float k) as [q|] eqn:Hq; [|congruence].
    assert (Hfl : float_of py_float k = Ok q) by (unfold float_of; rewrite Hq; reflexivity).
    rewrite Hfl, py_index_second, mesh_not_in_empty. cbn [negb].
    rewrite (py_split_on_nodot _ _ (kspacing_key_nodot k)). cbn [ctx_assign app].
    match goal with
    | |- context [run_kspacing_loop py_float runner ps lat ks (S idx) (x :: MStr "" :: ?r) ?st] =>
        destruct (IH (S idx) x r st Hks) as [Hm [subs [s [Hr Hs]]]];
        destruct (run_kspacing_loop py_float runner ps lat ks (S idx) (x :: MStr "" :: r) st)
          as [evs rr]
    end.
    cbn [fst snd] in Hm, Hr. subst rr. split.
    + cbn [fst map submission]. f_equal. exact Hm.
    + eexists. eexists. split; [reflexivity|]. constructor; [eexists; reflexivity|exact Hs].
Qed.

(** Once [ctx.energy_cutoff] is set and every spacing is a valid float,
    [run_kspacing] submits exactly one trial per spacing, in the order of
    [kspacing_list], even when two spacings give the same mesh: the trial
    for spacing [s] is labelled [kspacing_<'_'.join(str(s).split('.'))>]
    and submitted with the parameters of the work chain unchanged; the
    futures finishing in any order then let the outline continue, with the
    same parameters. *)
Theorem run_kspacing_submissions py_float runner resolve inp c v :
  (forall st l, Permutation (resolve st l) l) ->
  ctx_energy_cutoff c = Some v ->
  Forall (fun s => py_float s <> None) (wc_kspacing_list inp) ->
  map submission (fst (run_kspacing py_float runner resolve inp c)) =
    map (fun s => Some ("kspacing", String.append "kspacing_" (py_join "_" (py_split_on "." s)),
                        ctx_parameters c))
        (wc_kspacing_list inp) /\
  exists c', snd (run_kspacing py_float runner resolve inp c) = Ok (Next c') /\
             ctx_parameters c' = ctx_parameters c.
Proof.
  intros Hperm Hc Hf. unfold run_kspacing. rewrite Hc.
  destruct (run_kspacing_loop_single py_float runner (ctx_parameters c) (wc_structure inp)
              (wc_kspacing_list inp) 0 (MStr "") [] (ctx_kspacing c) Hf)
    as [Hm [subs [s [Hr Hs]]]].
  destruct (run_kspacing_loop py_float runner (ctx_parameters c) (wc_structure inp)
              (wc_kspacing_list inp) 0 [MStr ""; MStr ""] (ctx_kspacing c)) as [evs r].
  cbn [fst snd] in Hm, Hr. subst r.
  destruct (assign_all_single s (resolve "kspacing" subs)) as [s' Hs'].
  { apply Forall_forall. intros pt Hin. apply (Permutation_in _ (Hperm _ _)) in Hin.
    exact (proj1 (Forall_forall _ _) Hs pt Hin). }
  rewrite Hs'. split; [exact Hm|]. eexists. split; reflexivity.
Qed.

Lemma run_kspacing_submissions_witness :
  map submission (fst (run_kspacing dec_float runner_ok resolve_in_order
                         (sweep_of ["30 Ry"] ["0.6"; "0.7"])
                         {| ctx_parameters := base_parameters_cutoff; ctx_energy := None;
                            ctx_kspacing := None; ctx_results_energy := [];
                            ctx_results_kspacing := [];
                            ctx_energy_cutoff := Some (VStr "30 Ry");
                            ctx_kspacing_sel := None |})) =
  [Some ("kspacing", "kspacing_0_6", base_parameters_cutoff);
   Some ("kspacing", "kspacing_0_7", base_parameters_cutoff)].
Proof.
  refine (eq_trans (proj1 (run_kspacing_submissions dec_float runner_ok resolve_in_order
                             (sweep_of ["30 Ry"] ["0.6"; "0.7"])
                             {| ctx_parameters := base_parameters_cutoff; ctx_energy := None;
                                ctx_kspacing := None; ctx_results_energy := [];
                                ctx_results_kspacing := [];
                                ctx_energy_cutoff := Some (VStr "30 Ry");
                                ctx_kspacing_sel := None |}
                             (VStr "30 Ry") (fun st l => Permutation_refl _) eq_refl _)) _).
  - repeat constructor; vm_compute; intros H; discriminate H.
  - reflexivity.
Defined.

(* ------------------------------------------------------------------ *)
(** ** Further properties of [prepare_for_submission] *)

Lemma py_index_first {A} (x : A) l : py_index (x :: l) 0 = Ok x.
Proof.
  unfold py_index. cbn [length].
  replace ((0 <? 0)%Z) with false by reflexivity.
  replace ((Z.of_nat (S (length l)) <=? 0)%Z) with false by (symmetry; apply Z.leb_gt; lia).
  reflexivity.
Qed.





Lemma last_app3 {A} (l : list A) a b c d : last (l ++ [a; b; c]) d = c.
Proof.
  replace [a; b; c] with ([a; b] ++ [c]) by reflexivity.
  rewrite app_assoc, last_last. reflexivity.
Qed.

(** A prepared input script ends with [inq run <first key of the run
    section>], a blank line and [echo "AiiDA DONE"], the line the parser
    looks for; the [CalcInfo] asks for [aiida.out] and [aiida.err] to be
    retrieved, with [aiida.out] as the standard output. *)
Theorem prepare_script_ends_with_sentinel float_repr ps s script ci :
  prepare_for_submission float_repr ps s = Ok (script, ci) ->
  exists k v rest body,
    dict_get ps "run" = Some (VDict ((k, v) :: rest)) /\
    script = body ++ [String.append "inq run " k; "";
                      String.append "echo " (String.append dq (String.append "AiiDA DONE" dq))] /\
    py_contains "AiiDA DONE" (last script "") = true /\
    ci_stdout_name ci = DEFAULT_OUTPUT_FILE /\
    ci_retrieve_temporary_list ci = [DEFAULT_OUTPUT_FILE; DEFAULT_ERROR_FILE].
Proof.
  unfold prepare_for_submission. destruct (get_ase s) as [[]|e0]; cbn [bind]; [|discriminate].
  unfold dict_pop. cbn beta iota zeta.
  destruct (dict_get ps "run") as [[| | | | | |[|[k v] rest]]|]; simpl; try discriminate.
  try rewrite py_index_first; simpl.
  destruct (parameter_lines float_repr (filter (fun kv => negb (String.eqb (fst kv) "run")) ps))
    as [pl|e]; simpl; [|discriminate].
  intros H. injection H as Hs <-.
  exists k, v, rest, (header_lines ++ [cell_line s] ++ atom_lines s ++ pl).
  split; [reflexivity|].
  assert (Heq : script = (header_lines ++ [cell_line s] ++ atom_lines s ++ pl) ++
                  [String.append "inq run " k; "";
                   String.append "echo " (String.append dq (String.append "AiiDA DONE" dq))])
    by (rewrite <- Hs, <- !app_assoc; reflexivity).
  split; [exact Heq|]. split; [|split; reflexivity].
  rewrite Heq, last_app3. reflexivity.
Qed.

Lemma prepare_script_ends_with_sentinel_witness :
  exists script ci, prepare_for_submission (fun _ => "0.0") base_parameters example_structure
                      = Ok (script, ci) /\
  exists k v rest body,
    dict_get base_parameters "run" = Some (VDict ((k, v) :: rest)) /\
    script = body ++ [String.append "inq run " k; "";
                      String.append "echo " (String.append dq (String.append "AiiDA DONE" dq))] /\
    py_contains "AiiDA DONE" (last script "") = true /\
    ci_stdout_name ci = DEFAULT_OUTPUT_FILE /\
    ci_retrieve_temporary_list ci = [DEFAULT_OUTPUT_FILE; DEFAULT_ERROR_FILE].
Proof.
  destruct (prepare_for_submission (fun _ => "0.0") base_parameters example_structure)
    as [[script ci]|e] eqn:E; [|vm_compute in E; discriminate].
  exists script, ci. split; [reflexivity|].
  exact (prepare_script_ends_with_sentinel _ _ _ _ _ E).
Defined.



(* ------------------------------------------------------------------ *)
(** ** Further properties of the parser *)

(** Whenever [parse] returns instead of raising, it returns exit code 0 and
    emits [output_parameters]: both failure paths look up an exit code
    that is not declared and raise. *)
Theorem parse_emits_only_on_success py_float ase_unit node temp code outs :
  parse py_float ase_unit node temp = Ok (code, outs) ->
  code = ExitOK /\ exists rd, outs = [("output_parameters", VDict rd)].
Proof.
  unfold parse. cbv zeta.
  destruct (subset_of (expected_files node) (node_retrieve_temporary_list node)); simpl negb;
    cbv iota; [|discriminate].
  intros H. apply bind_inv in H as [rl [_ H]].
  apply bind_inv in H as [ol [_ H]].
  apply bind_inv in H as [final [_ H]].
  destruct (py_contains "AiiDA DONE" final); simpl negb in H; cbv iota in H; [|discriminate].
  apply bind_inv in H as [rd [_ H]]. injection H as <- <-.
  split; [reflexivity|exists rd; reflexivity].
Qed.

Lemma parse_emits_only_on_success_witness :
  parse dec_float ase_units_ev (parser_node base_parameters)
        [(DEFAULT_OUTPUT_FILE, "x AiiDA DONE y")] = Ok (ExitOK, [("output_parameters", VDict [])]) /\
  exists rd, [("output_parameters", VDict [])] = [("output_parameters", VDict rd)].
Proof.
  assert (H : parse dec_float ase_units_ev (parser_node base_parameters)
                [(DEFAULT_OUTPUT_FILE, "x AiiDA DONE y")]
              = Ok (ExitOK, [("output_parameters", VDict [])])) by (vm_compute; reflexivity).
  split; [exact H|].
  exact (proj2 (parse_emits_only_on_success _ _ _ _ _ _ H)).
Defined.

Lemma existsb_not_retrieved (o : option string) (retrieved : list string) :
  (forall f, o = Some f -> ~ In f retrieved) ->
  existsb (fun r => match o with Some s => String.eqb s r | None => false end) retrieved = false.
Proof.
  intros H. destruct (existsb _ retrieved) eqn:E; [|reflexivity].
  apply existsb_exists in E as [r [Hin Hr]].
  destruct o as [s|]; [|discriminate].
  apply String.eqb_eq in Hr. subst r. exfalso. exact (H s eq_refl Hin).
Qed.

(** The retrieval check of [parse] compares the expected names with the
    list of files requested for retrieval: if the output file option is
    unset or not in that list, or if the parameters have a [results]
    section and the [results_filename] option is unset or not in that list
    (the calculation only requests [aiida.out] and [aiida.err]), [parse]
    looks up the undeclared ERROR_MISSING_OUTPUT_FILES and raises
    [AttributeError], whatever the folder holds. *)
Theorem parse_unlisted_file_missing py_float ase_unit node temp :
  ((forall f, get_option node "output_filename" = Some f ->
              ~ In f (node_retrieve_temporary_list node)) \/
   (dict_mem (node_parameters node) "results" = true /\
    forall f, get_option node "results_filename" = Some f ->
              ~ In f (node_retrieve_temporary_list node))) ->
  parse py_float ase_unit node temp = Exc AttributeError.
Proof.
  intros H.
  assert (Hs : subset_of (expected_files node) (node_retrieve_temporary_list node) = false).
  { unfold subset_of, expected_files. destruct H as [H|[Hm H]].
    - cbn [forallb]. rewrite (existsb_not_retrieved _ _ H). reflexivity.
    - rewrite Hm. unfold results_name. rewrite Hm. cbn [forallb].
      rewrite (existsb_not_retrieved _ _ H). rewrite !andb_false_r. reflexivity. }
  unfold parse. cbv zeta. rewrite Hs. reflexivity.
Qed.

Lemma parse_unlisted_file_missing_witness :
  parse dec_float ase_units_ev
        (parser_node [("run", VDict [("real-time", VBool true)]);
                      ("results", VDict [("energy", VBool true)])])
        [(DEFAULT_OUTPUT_FILE, "AiiDA DONE")] = Exc AttributeError.
Proof.
  apply parse_unlisted_file_missing. right. split; [reflexivity|].
  intros f H. discriminate.
Defined.

(** Once the retrieval check passes, the files can be read and the output's
    last line contains [AiiDA DONE], [output_parameters] is what the
    section loop gives on the lines of the results file when the
    parameters have a [results] section with a non-empty
    [results_filename], and on the lines of the output file otherwise. *)
Theorem parse_complete_reads_sections py_float ase_unit node temp content pre final :
  subset_of (expected_files node) (node_retrieve_temporary_list node) = true ->
  dict_get temp (fmt_opt (get_option node "output_filename")) = Some content ->
  file_lines content = pre ++ [final] ->
  py_contains "AiiDA DONE" final = true ->
  (forall rc, truthy (results_name node) = true ->
   dict_get temp (fmt_opt (results_name node)) = Some rc ->
   parse py_float ase_unit node temp =
   (rd <- parse_sections py_float ase_unit (file_lines rc) None [] ;;
    Ok (ExitOK, [("output_parameters", VDict rd)]))) /\
  (truthy (results_name node) = false ->
   parse py_float ase_unit node temp =
   (rd <- parse_sections py_float ase_unit (file_lines content) None [] ;;
    Ok (ExitOK, [("output_parameters", VDict rd)]))).
Proof.
  intros Hsub Hout Hlines Hdone.
  unfold parse. rewrite Hsub. cbv zeta. simpl negb. cbv iota. split.
  - intros rc Ht Hrc. rewrite Ht. cbv iota.
    rewrite (read_lines_found _ _ _ Hrc), bind_ok, (read_lines_found _ _ _ Hout), bind_ok,
      Hlines, py_index_last, bind_ok, Hdone.
    reflexivity.
  - intros Ht. rewrite Ht. cbv iota.
    rewrite bind_ok, (read_lines_found _ _ _ Hout), bind_ok, Hlines, py_index_last, bind_ok, Hdone.
    reflexivity.
Qed.

Lemma parse_complete_reads_sections_witness :
  parse dec_float ase_units_ev (parser_node base_parameters)
        [(DEFAULT_OUTPUT_FILE, example_output)] =
  (rd <- parse_sections dec_float ase_units_ev (file_lines example_output) None [] ;;
   Ok (ExitOK, [("output_parameters", VDict rd)])).
Proof.
  apply (parse_complete_reads_sections dec_float ase_units_ev (parser_node base_parameters)
           [(DEFAULT_OUTPUT_FILE, example_output)] example_output
           ["Energy:"; " total  -0.5 Hartree"; ""] "AiiDA DONE").
  - reflexivity.
  - reflexivity.
  - vm_compute. reflexivity.
  - reflexivity.
  - reflexivity.
Defined.

Lemma py_index_second_last {A} (pre : list A) (x y : A) :
  py_index (pre ++ [x; y]) (-2) = Ok x.
Proof.
  unfold py_index. cbv zeta. rewrite length_app. simpl length.
  change ((-2 <? 0)%Z) with true. cbv iota.
  replace (Z.of_nat (length pre + 2) + -2)%Z with (Z.of_nat (length pre)) by lia.
  replace ((Z.of_nat (length pre) <? 0)%Z) with false by (symmetry; apply Z.ltb_ge; lia).
  replace ((Z.of_nat (length pre + 2) <=? Z.of_nat (length pre))%Z) with false
    by (symmetry; apply Z.leb_gt; lia).
  simpl. rewrite Nat2Z.id, nth_error_app2, Nat.sub_diag by lia. reflexivity.
Qed.

Lemma to_floats_bad py_float l s :
  In s l -> py_float s = None -> to_floats py_float l = Exc ValueError.
Proof.
  induction l as [|x l IH]; simpl; [contradiction|].
  intros [->|Hin] Hs; unfold to_float.
  - rewrite Hs. reflexivity.
  - destruct (py_float x); [|reflexivity]. cbn [bind]. rewrite (IH Hin Hs). reflexivity.
Qed.

Lemma parse_sections_skip py_float ase_unit pre rest rd :
  Forall (fun l => py_contains "Energy:" l = false /\ py_contains "Forces:" l = false) pre ->
  parse_sections py_float ase_unit (pre ++ rest) None rd =
  parse_sections py_float ase_unit rest None rd.
Proof.
  induction 1 as [|l pre [He Hf] _ IH]; [reflexivity|].
  simpl. rewrite He, Hf. destruct (String.eqb l ""); exact IH.
Qed.

Lemma parse_sections_forces_rows py_float ase_unit lines rows rest rd :
  Forall2 (fun l fs => py_contains "Energy:" l = false /\ py_contains "Forces:" l = false /\
                       l <> "" /\ to_floats py_float (py_split_ws l) = Ok fs) lines rows ->
  forall acc,
  parse_sections py_float ase_unit (lines ++ rest) (Some SecForces)
    (dict_set rd "forces" (VDict [("values", VList acc)])) =
  parse_sections py_float ase_unit rest (Some SecForces)
    (dict_set rd "forces" (VDict [("values", VList (acc ++ map VList rows))])).
Proof.
  induction 1 as [|l fs lines rows [He [Hf [Hne Hfs]]] _ IH]; intros acc.
  - rewrite app_nil_r. reflexivity.
  - cbn [app parse_sections]. rewrite He, Hf.
    replace (String.eqb l "") with false by (symmetry; apply String.eqb_neq; exact Hne).
    cbv zeta iota. rewrite Hfs, bind_ok.
    unfold append_in_section. rewrite dict_get_set_eq.
    change (dict_get [("values", VList acc)] "values") with (Some (VList acc)).
    cbv iota. rewrite bind_ok, dict_set_twice.
    change (dict_set [("values", VList acc)] "values" (VList (acc ++ [VList fs])))
      with [("values", VList (acc ++ [VList fs]))].
    rewrite IH, <- app_assoc. reflexivity.
Qed.

Lemma parse_sections_energy_rows py_float ase_unit lines entries rest rd :
  Forall2 (energy_line_entry py_float ase_unit) lines entries ->
  forall d,
  parse_sections py_float ase_unit (lines ++ rest) (Some SecEnergy)
    (dict_set rd "energy" (VDict d)) =
  parse_sections py_float ase_unit rest (Some SecEnergy)
    (dict_set rd "energy" (VDict (fold_left store_energy entries d))).
Proof.
  induction 1 as [|l nv lines entries [He [Hf [Hne H]]] _ IH]; intros d.
  - reflexivity.
  - destruct H as (u & qu & n & qn & Hu & Hqu & Hn & Hqn & Hname & Hv).
    cbn [app parse_sections]. rewrite He, Hf.
    replace (String.eqb l "") with false by (symmetry; apply String.eqb_neq; exact Hne).
    cbv zeta iota. rewrite Hu, bind_ok. unfold get_unit. rewrite Hqu, bind_ok, Hn, bind_ok.
    unfold to_float. rewrite Hqn, bind_ok, Hname, bind_ok.
    unfold set_in_section. rewrite dict_get_set_eq, bind_ok, dict_set_twice.
    cbn [fold_left]. rewrite <- IH. unfold store_energy. rewrite Hv. reflexivity.
Qed.

(** In [parse], an empty line ends the current section, and the lines
    after it that carry no [Energy:] or [Forces:] header are not read. *)
Theorem parse_sections_blank_closes_section py_float ase_unit pre rest st rd :
  Forall (fun l => py_contains "Energy:" l = false /\ py_contains "Forces:" l = false) pre ->
  parse_sections py_float ase_unit ("" :: pre ++ rest) st rd =
  parse_sections py_float ase_unit rest None rd.
Proof.
  intros H. cbn [parse_sections]. change (py_contains "Energy:" "") with false.
  change (py_contains "Forces:" "") with false. cbv zeta iota.
  apply parse_sections_skip. exact H.
Qed.

Lemma parse_sections_blank_closes_section_witness :
  parse_sections dec_float ase_units_ev ("" :: [" total -0.5 Hartree"] ++ ["Forces:"]) (Some SecEnergy) [] =
  parse_sections dec_float ase_units_ev ["Forces:"] None [].
Proof.
  apply parse_sections_blank_closes_section. repeat constructor.
Defined.

(** A [Forces:] header followed by lines of numbers stores, under
    [forces], a dict whose [values] list has one row per line, in order; the
    header replaces any earlier [forces] entry. *)
Theorem parse_sections_forces_block py_float ase_unit h lines rows rest st rd :
  py_contains "Energy:" h = false -> py_contains "Forces:" h = true ->
  Forall2 (fun l fs => py_contains "Energy:" l = false /\ py_contains "Forces:" l = false /\
                       l <> "" /\ to_floats py_float (py_split_ws l) = Ok fs) lines rows ->
  parse_sections py_float ase_unit (h :: lines ++ rest) st rd =
  parse_sections py_float ase_unit rest (Some SecForces)
    (dict_set rd "forces" (VDict [("values", VList (map VList rows))])).
Proof.
  intros He Hf H. cbn [parse_sections]. rewrite He, Hf.
  apply (parse_sections_forces_rows py_float ase_unit lines rows rest rd H []).
Qed.

Lemma parse_sections_forces_block_witness :
  parse_sections dec_float ase_units_ev ("Forces:" :: [" 0.5 -1 2"; " 1 1 1"] ++ [])
    None [("forces", VStr "old")] =
  parse_sections dec_float ase_units_ev [] (Some SecForces)
    (dict_set [("forces", VStr "old")] "forces"
       (VDict [("values", VList (map VList
          [[VFloat (5 # 10); VFloat (-1); VFloat 2]; [VFloat 1; VFloat 1; VFloat 1]]))])).
Proof.
  apply parse_sections_forces_block; [reflexivity | reflexivity |].
  repeat apply Forall2_cons; try apply Forall2_nil;
    (split; [reflexivity | split; [reflexivity | split; [discriminate | vm_compute; reflexivity]]]).
Defined.

(** An [Energy:] header followed by lines [name ... number unit]
    stores, under [energy], a dict that starts with [unit: eV] and then maps
    each name to the number times the unit's value, later lines overriding
    earlier ones of the same name. *)
Theorem parse_sections_energy_block py_float ase_unit h lines entries rest st rd :
  py_contains "Energy:" h = true ->
  Forall2 (energy_line_entry py_float ase_unit) lines entries ->
  parse_sections py_float ase_unit (h :: lines ++ rest) st rd =
  parse_sections py_float ase_unit rest (Some SecEnergy)
    (dict_set rd "energy" (VDict (fold_left store_energy entries [("unit", VStr "eV")]))).
Proof.
  intros He H. cbn [parse_sections]. rewrite He.
  apply parse_sections_energy_rows. exact H.
Qed.

Lemma parse_sections_energy_block_witness :
  parse_sections dec_float ase_units_ev ("Energy:" :: [" total -0.5 Hartree"; " ion 2 eV"] ++ [])
    None [] =
  parse_sections dec_float ase_units_ev [] (Some SecEnergy)
    (dict_set [] "energy" (VDict (fold_left store_energy
       [("total", ((-5 # 10) * (2721138624 # 100000000))%Q); ("ion", (2 * 1)%Q)]
       [("unit", VStr "eV")]))).
Proof.
  apply parse_sections_energy_block; [reflexivity |].
  repeat apply Forall2_cons; try apply Forall2_nil; unfold energy_line_entry;
    (split; [reflexivity | split; [reflexivity | split; [discriminate |]]]);
    do 4 eexists; repeat split; vm_compute; reflexivity.
Defined.

(** A malformed line inside a section aborts [parse] with an
    exception: in an energy section a line of blanks only or a line with a
    single token raises IndexError, an unknown unit (the last token) raises
    AttributeError, and a number that does not parse raises ValueError; in a
    forces section a token that does not parse raises ValueError. *)
Theorem parse_sections_malformed_line py_float ase_unit l rest rd :
  py_contains "Energy:" l = false -> py_contains "Forces:" l = false -> l <> "" ->
  (py_split_ws l = [] ->
     parse_sections py_float ase_unit (l :: rest) (Some SecEnergy) rd = Exc IndexError) /\
  (forall pre u, py_split_ws l = pre ++ [u] -> ase_unit u = None ->
     parse_sections py_float ase_unit (l :: rest) (Some SecEnergy) rd = Exc AttributeError) /\
  (forall u q, py_split_ws l = [u] -> ase_unit u = Some q ->
     parse_sections py_float ase_unit (l :: rest) (Some SecEnergy) rd = Exc IndexError) /\
  (forall pre n u q, py_split_ws l = pre ++ [n; u] -> ase_unit u = Some q -> py_float n = None ->
     parse_sections py_float ase_unit (l :: rest) (Some SecEnergy) rd = Exc ValueError) /\
  (forall s, In s (py_split_ws l) -> py_float s = None ->
     parse_sections py_float ase_unit (l :: rest) (Some SecForces) rd = Exc ValueError).
Proof.
  intros He Hf Hne. cbn [parse_sections]. rewrite He, Hf.
  replace (String.eqb l "") with false by (symmetry; apply String.eqb_neq; exact Hne).
  cbv zeta iota. repeat split.
  - intros ->. rewrite py_index_empty. reflexivity.
  - intros pre u -> Hu. rewrite py_index_last, bind_ok. unfold get_unit. rewrite Hu. reflexivity.
  - intros u q -> Hu. change [u] with ([] ++ [u]). rewrite py_index_last, bind_ok.
    unfold get_unit. rewrite Hu, bind_ok. reflexivity.
  - intros pre n u q -> Hu Hn. replace (pre ++ [n; u]) with ((pre ++ [n]) ++ [u])
      by (rewrite <- app_assoc; reflexivity).
    rewrite py_index_last, bind_ok. unfold get_unit. rewrite Hu, bind_ok.
    rewrite <- app_assoc. cbn [app]. rewrite py_index_second_last, bind_ok.
    unfold to_float. rewrite Hn. reflexivity.
  - intros s Hin Hs. rewrite (to_floats_bad py_float _ s Hin Hs). reflexivity.
Qed.

Lemma parse_sections_malformed_line_witness :
  parse_sections dec_float ase_units_ev [" total x Hartree"] (Some SecEnergy) [] = Exc ValueError.
Proof.
  refine (proj1 (proj2 (proj2 (proj2 (parse_sections_malformed_line dec_float ase_units_ev
            " total x Hartree" [] [] eq_refl eq_refl _)))) ["total"] "x" "Hartree" _ eq_refl eq_refl eq_refl);
  first [discriminate | vm_compute; reflexivity].
Defined.
